(** * Wine classification service and its batch-negotiating dashboard client

    A shallow embedding of
      - [frontend/Dashboard.py]: [call_api], [try_batch_with_fallback],
        [normalize_uploaded_json];
      - [Backend/src/predict.py]: [predict_data], [predict_with_prob];
      - [Backend/src/main.py]: [WineData], [predict_wine],
        [predict_wine_with_probability].

    Python values that travel as JSON are terms of [json]; a Python [float]
    is a binary64 number ([PrimFloat.float]); an exception is a value of
    [py_exn]; code that may raise returns a [result]; the network is an
    explicit world that [call_api] threads through a small state monad,
    together with a log of the round trips made. *)

From Stdlib Require Import ZArith List String Ascii Bool Floats Lia.
Import ListNotations.

Set Warnings "-register-all,-inexact-float,-notation-for-abbreviation".

Local Open Scope string_scope.
Local Open Scope list_scope.

(* ===================================================================== *)
(** ** JSON values, as [json.load] / [resp.json()] produce them           *)
(* ===================================================================== *)

(** A decoded JSON document.  A Python [dict] keeps its insertion order, so
    an object is an association list; [dict_get] reads the first binding of
    a key. *)
Inductive json : Type :=
| JNull
| JBool (b : bool)
| JInt (n : Z)
| JFloat (f : float)
| JStr (s : string)
| JList (items : list json)
| JDict (fields : list (string * json)).

Definition pydict : Type := list (string * json).

(** [d[k]] when [k in d]; [None] stands for [k not in d]. *)
Fixpoint dict_get (d : pydict) (k : string) : option json :=
  match d with
  | [] => None
  | (k', v) :: rest => if String.eqb k k' then Some v else dict_get rest k
  end.

(** [k in d] *)
Definition dict_has (d : pydict) (k : string) : bool :=
  match dict_get d k with Some _ => true | None => false end.

(** [d.get(k, default)] *)
Definition dict_get_default (d : pydict) (k : string) (default : json) : json :=
  match dict_get d k with Some v => v | None => default end.

(** [d[k] = v]: overwrite in place when the key is there, else add it last. *)
Fixpoint dict_set (d : pydict) (k : string) (v : json) : pydict :=
  match d with
  | [] => [(k, v)]
  | (k', v') :: rest =>
      if String.eqb k k' then (k', v) :: rest else (k', v') :: dict_set rest k v
  end.

(** [isinstance(x, dict)] and [isinstance(x, list)] on decoded JSON. *)
Definition is_dict (x : json) : bool :=
  match x with JDict _ => true | _ => false end.

Definition is_list (x : json) : bool :=
  match x with JList _ => true | _ => false end.

(** Python exceptions: the class name and the text that [str(e)] gives. *)
Record py_exn : Type := Exn { exn_class : string; exn_text : string }.

(** Code that may raise. *)
Inductive result (A : Type) : Type :=
| Ok (a : A)
| Raise (e : py_exn).
Arguments Ok {A} a.
Arguments Raise {A} e.

(* ===================================================================== *)
(** ** Text: the [in] operator on strings                                 *)
(* ===================================================================== *)

(** [needle in hay] for two Python strings. *)
Fixpoint str_contains (needle hay : string) : bool :=
  if String.prefix needle hay then true
  else match hay with
       | EmptyString => false
       | String _ rest => str_contains needle rest
       end.

(** What the operator decides: [needle] occurs somewhere inside [hay]. *)
Definition occurs_in (needle hay : string) : Prop :=
  exists before after, hay = (before ++ needle ++ after)%string.

(* ===================================================================== *)
(** ** Dashboard.py: normalize_uploaded_json                              *)
(* ===================================================================== *)

Definition ValueError_not_recognized : py_exn :=
  Exn "ValueError"
      "Uploaded JSON not recognized. Provide a dict or a list of dicts.".

(** [normalize_uploaded_json(uploaded_json)], Dashboard.py lines 111-129. *)
Definition normalize_uploaded_json (uploaded_json : json) : result json :=
  match uploaded_json with
  | JDict d =>
      if dict_has d "input_batch"
         && match dict_get d "input_batch" with
            | Some v => is_list v
            | None => false
            end
      then Ok (dict_get_default d "input_batch" JNull)
      else if dict_has d "input"
              && match dict_get d "input" with
                 | Some v => is_dict v
                 | None => false
                 end
      then Ok (dict_get_default d "input" JNull)
      else Ok uploaded_json
  | JList _ => Ok uploaded_json
  | _ => Raise ValueError_not_recognized
  end.

(** The JSON values that are neither an object nor an array. *)
Definition is_scalar (x : json) : bool :=
  negb (is_dict x) && negb (is_list x).

(* ===================================================================== *)
(** ** Dashboard.py: the network, call_api and try_batch_with_fallback    *)
(* ===================================================================== *)

Definition FASTAPI_BACKEND_ENDPOINT : string := "http://localhost:8000".

(** A [requests.Response]: [resp.status_code], [resp.json()] ([None] when
    decoding the body raises) and [resp.text]. *)
Record response : Type := Response {
  status_code : Z;
  json_body : option json;
  text : string
}.

(** One round trip as the world saw it: the URL and JSON payload posted,
    what [requests.post] did (returned a response or raised), and the
    wall-clock seconds between the two [time.time()] readings around it. *)
Record round_trip : Type := RoundTrip {
  rt_url : string;
  rt_payload : json;
  rt_result : result response;
  rt_seconds : float
}.

(** A small state monad for the code that talks to the network. *)
Definition M (S A : Type) : Type := S -> A * S.

Definition ret {S A : Type} (a : A) : M S A := fun s => (a, s).

Definition bind {S A B : Type} (c : M S A) (k : A -> M S B) : M S B :=
  fun s => let (a, s') := c s in k a s'.

Notation "x <- c ;; k" := (bind c (fun x => k))
  (at level 61, c at next level, right associativity).
Notation "' pat <- c ;; k" := (bind c (fun x => match x with pat => k end))
  (at level 61, pat pattern, c at next level, right associativity).

Section Client.

(** The world outside the process and [requests.post(url, json=payload,
    timeout=timeout)] acting on it: the call returns a response or raises
    (connection error, timeout), takes some wall-clock time, and leaves
    the world in a new state. *)
Variable World : Type.
Variable requests_post :
  World -> string -> json -> float -> result response * float * World.

(** Python's built-in [str()] on a decoded JSON value. *)
Variable py_str : json -> string.

(** The client's state: the world and the round trips made so far, oldest
    first. *)
Record client_state : Type := ClientState {
  world : World;
  trips : list round_trip
}.

(** [call_api(endpoint, payload, timeout=15.0)], Dashboard.py lines 30-37:
    returns [(resp, elapsed)] or lets the exception of [requests.post]
    through, in which case [elapsed] is never computed. *)
Definition call_api (endpoint : string) (payload : json) (timeout : float)
  : M client_state (result (response * float)) :=
  fun st =>
    let url := (FASTAPI_BACKEND_ENDPOINT ++ endpoint)%string in
    let '(r, seconds, w) := requests_post (world st) url payload timeout in
    let st' := ClientState w (trips st ++ [RoundTrip url payload r seconds]) in
    match r with
    | Ok resp => (Ok (resp, seconds), st')
    | Raise e => (Raise e, st')
    end.

(** Lines 68-78: the scan of the 422 payload.  [resp.json()] may raise,
    [err.get] raises on anything but a dict, and [for d in detail] raises
    on a number, a boolean or [None]; every exception lands in the
    [except] branch.  A dict iterates over its keys and a string over its
    characters, none of which is a dict. *)
Definition entry_matches (d : json) : bool :=
  match d with
  | JDict fields =>
      match dict_get fields "msg" with
      | Some msg => str_contains "dictionary or object" (py_str msg)
      | None => false
      end
  | _ => false
  end.

Definition should_fallback (resp : response) : bool :=
  match json_body resp with
  | None => false
  | Some (JDict err) =>
      match dict_get_default err "detail" (JList []) with
      | JList detail => existsb entry_matches detail
      | JDict _ => false
      | JStr _ => false
      | _ => false
      end
  | Some _ => false
  end.

(** Lines 60-63 and 92-95: [resp.json()], else [{"raw_text": resp.text}]. *)
Definition json_or_raw_text (resp : response) : json :=
  match json_body resp with
  | Some j => j
  | None => JDict [("raw_text", JStr (text resp))]
  end.

(** Lines 105-108: [resp.json()], else [resp.text]. *)
Definition json_or_text (resp : response) : json :=
  match json_body resp with
  | Some j => j
  | None => JStr (text resp)
  end.

(** Line 56 and line 88: [f"Request failed: {e}"]. *)
Definition request_failed (e : py_exn) : string :=
  ("Request failed: " ++ exn_text e)%string.

(** Line 88: the entry appended when the call for [rec] raised. *)
Definition transport_error_entry (e : py_exn) (rec : json) : json :=
  JDict [("error", JStr (request_failed e)); ("input", rec)].

(** Lines 91-101: the entry appended for a response that arrived. *)
Definition response_entry (single_resp : response) : json :=
  if (status_code single_resp =? 200)%Z then json_or_raw_text single_resp
  else JDict [("error", json_or_text single_resp);
              ("status", JInt (status_code single_resp))].

(** The entry that one record's round trip contributes. *)
Definition item_entry (rec : json) (r : result response) : json :=
  match r with
  | Ok single_resp => response_entry single_resp
  | Raise e => transport_error_entry e rec
  end.

(** Lines 83-101: [for rec in records], with the two variables the loop
    updates, [aggregated] and [elapsed_total]. *)
Fixpoint fallback_loop (endpoint : string) (records : list json)
         (aggregated : list json) (elapsed_total : float)
  : M client_state (list json * float) :=
  match records with
  | [] => ret (aggregated, elapsed_total)
  | rec :: rest =>
      r <- call_api endpoint rec 15%float ;;
      match r with
      | Raise e =>
          fallback_loop endpoint rest
                        (aggregated ++ [transport_error_entry e rec])
                        elapsed_total
      | Ok (single_resp, single_elapsed) =>
          fallback_loop endpoint rest
                        (aggregated ++ [response_entry single_resp])
                        (elapsed_total + single_elapsed)%float
      end
  end.

(** [try_batch_with_fallback(endpoint, records)], lines 39-108; returns
    [(success, result, elapsed_total_seconds)].  [call_api] only ever
    returns a [requests.Response], so the [isinstance] tests hold. *)
Definition try_batch_with_fallback (endpoint : string) (records : list json)
  : M client_state (bool * json * float) :=
  let elapsed_total := 0%float in
  r <- call_api endpoint (JList records) 15%float ;;
  match r with
  | Raise e => ret (false, JStr (request_failed e), elapsed_total)
  | Ok (resp, elapsed) =>
      let elapsed_total := (elapsed_total + elapsed)%float in
      if (status_code resp =? 200)%Z then
        ret (true, json_or_raw_text resp, elapsed_total)
      else if (status_code resp =? 422)%Z && should_fallback resp then
        ' (aggregated, elapsed_total) <-
            fallback_loop endpoint records [] elapsed_total ;;
        ret (true, JList aggregated, elapsed_total)
      else
        ret (false, json_or_text resp, elapsed_total)
  end.

(** The signature the scan looks for, said declaratively: the decoded
    payload is an object whose ["detail"] is a list with an entry that is
    an object whose ["msg"], as text, contains "dictionary or object". *)
Definition entry_has_signature (d : json) : Prop :=
  exists fields msg,
    d = JDict fields /\ dict_get fields "msg" = Some msg /\
    occurs_in "dictionary or object" (py_str msg).

Definition has_signature (resp : response) : Prop :=
  exists err detail d,
    json_body resp = Some (JDict err) /\
    dict_get err "detail" = Some (JList detail) /\
    In d detail /\ entry_has_signature d.

End Client.

Arguments world {World} _.
Arguments trips {World} _.
Arguments ClientState {World} _ _.
Arguments call_api {World} requests_post endpoint payload timeout _.
Arguments fallback_loop {World} requests_post endpoint records aggregated
  elapsed_total _.
Arguments try_batch_with_fallback {World} requests_post py_str endpoint
  records _.

(** The sum of a sequence of durations, as Python's [sum] adds floats:
    from zero, left to right. *)
Definition sum_seconds (l : list float) : float :=
  fold_left PrimFloat.add l 0%float.

(** The URL that [call_api] posts to for an endpoint. *)
Definition url_of (endpoint : string) : string :=
  (FASTAPI_BACKEND_ENDPOINT ++ endpoint)%string.

(** What [call_api] hands to its caller for a given outcome of
    [requests.post]. *)
Definition handed_back (r : result response) (seconds : float)
  : result (response * float) :=
  match r with
  | Ok resp => Ok (resp, seconds)
  | Raise e => Raise e
  end.

(** The entry that a per-record round trip contributes to [aggregated]. *)
Definition trip_entry (tr : round_trip) : json :=
  item_entry (rt_payload tr) (rt_result tr).

(** The seconds that [call_api] handed back for a round trip: its elapsed
    time when a response arrived, nothing when [requests.post] raised. *)
Definition measured (tr : round_trip) : list float :=
  match rt_result tr with
  | Ok _ => [rt_seconds tr]
  | Raise _ => []
  end.

(** The result that hands the endpoint's answer to a batch call through
    unchanged: success with the decoded body on status 200, failure with
    the error payload otherwise. *)
Definition pass_through (r : result response) (seconds : float)
  : bool * json * float :=
  match r with
  | Ok resp =>
      if (status_code resp =? 200)%Z
      then (true, json_or_raw_text resp, (0 + seconds)%float)
      else (false, json_or_text resp, (0 + seconds)%float)
  | Raise e => (false, JStr (request_failed e), 0%float)
  end.

(** What the network does when [records] are posted to [url] one after the
    other, each with the default timeout: the round trips, in order, each
    made in the world the one before left, and the world the last one
    leaves.  A raised request does not stop the series. *)
Fixpoint post_each {World : Type}
         (requests_post :
            World -> string -> json -> float -> result response * float * World)
         (w : World) (url : string) (records : list json)
  : list round_trip * World :=
  match records with
  | [] => ([], w)
  | rec :: rest =>
      let '(r, seconds, w1) := requests_post w url rec 15%float in
      let '(item_trips, w') := post_each requests_post w1 url rest in
      (RoundTrip url rec r seconds :: item_trips, w')
  end.

(* ===================================================================== *)
(** ** Backend: predict.py and main.py                                    *)
(* ===================================================================== *)

(** Bind for code that may raise: the first exception ends the block. *)
Definition result_bind {A B : Type} (c : result A) (k : A -> result B)
  : result B :=
  match c with
  | Ok a => k a
  | Raise e => Raise e
  end.

Notation "x <-? c ;; k" := (result_bind c (fun x => k))
  (at level 61, c at next level, right associativity).

(** [seq[i]] on a Python sequence: positions [0 .. len-1], and [-len .. -1]
    counted from the end; anything else raises [IndexError]. *)
Definition py_index {A : Type} (seq : list A) (i : Z) : option A :=
  let n := Z.of_nat (List.length seq) in
  if (0 <=? i)%Z && (i <? n)%Z then nth_error seq (Z.to_nat i)
  else if (- n <=? i)%Z && (i <? 0)%Z then nth_error seq (Z.to_nat (n + i))
  else None.

(** The exception of an index out of range, with the text a list gives it
    (an array words it differently; nothing below depends on the text). *)
Definition IndexError : py_exn := Exn "IndexError" "list index out of range".

Definition index_or_raise {A : Type} (seq : list A) (i : Z) : result A :=
  match py_index seq i with
  | Some a => Ok a
  | None => Raise IndexError
  end.

(** predict.py lines 15-19 and 43-47. *)
Definition possible_paths : list string :=
  ["model/wine_model.pkl"; "../model/wine_model.pkl"; "./wine_model.pkl"].

(** predict.py lines 28 and 56. *)
Definition model_not_found : py_exn :=
  Exn "FileNotFoundError"
      "Wine model not found. Please run train.py first to create the model.".

(** The unpickled estimator, a black box with two methods; each may raise.
    [predict] gives one integer label per row, [predict_proba] one
    distribution per row. *)
Record estimator : Type := Estimator {
  predict : list (list float) -> result (list Z);
  predict_proba : list (list float) -> result (list (list float))
}.

(** main.py lines 13-26: the request model, thirteen floats. *)
Record WineData : Type := MkWineData {
  alcohol : float;
  malic_acid : float;
  ash : float;
  alcalinity_of_ash : float;
  magnesium : float;
  total_phenols : float;
  flavanoids : float;
  nonflavanoid_phenols : float;
  proanthocyanins : float;
  color_intensity : float;
  hue : float;
  od280_od315_of_diluted_wines : float;
  proline : float
}.

(** The field names of [WineData], in declaration order. *)
Definition WineData_fields : list string :=
  ["alcohol"; "malic_acid"; "ash"; "alcalinity_of_ash"; "magnesium";
   "total_phenols"; "flavanoids"; "nonflavanoid_phenols"; "proanthocyanins";
   "color_intensity"; "hue"; "od280_od315_of_diluted_wines"; "proline"].

(** main.py lines 49-63 and 80-94: [features = [[...]]]. *)
Definition features_of (wine_features : WineData) : list (list float) :=
  [[alcohol wine_features; malic_acid wine_features; ash wine_features;
    alcalinity_of_ash wine_features; magnesium wine_features;
    total_phenols wine_features; flavanoids wine_features;
    nonflavanoid_phenols wine_features; proanthocyanins wine_features;
    color_intensity wine_features; hue wine_features;
    od280_od315_of_diluted_wines wine_features; proline wine_features]].

(** What an endpoint sends back: the status and the JSON body. *)
Record http_response : Type := Http {
  http_status : Z;
  http_body : json
}.

(** [raise HTTPException(status_code=500, detail=str(e))], as the framework
    renders it. *)
Definition http_exception_500 (e : py_exn) : http_response :=
  Http 500 (JDict [("detail", JStr (exn_text e))]).

(** Modelled from the spec: the message of the validation entry reported
    for a request body that is not an object.  The entry is produced by the
    web framework from the declaration of [WineData], not by code among the
    sources; the specification asks for "a msg containing the phrase
    indicating a dictionary/object was expected".  The wording is the one
    Dashboard.py quotes (docstring, line 42) and searches for (line 74). *)
Definition msg_model_attributes_type : string :=
  "Input should be a valid dictionary or object to extract fields from".

Section Backend.

(** [os.path.exists] and [joblib.load] on the file system of the
    service. *)
Variable path_exists : string -> bool.
Variable joblib_load : string -> result estimator.

(** Modelled from the spec: [get_target_names()] of [data.py], which is
    not among the sources; "a fixed ordered list of N class labels known
    to the service". *)
Variable target_names : list string.

(** The float validator the framework applies to one field of
    [WineData]: the number, or the [type] and [msg] of the entry it
    reports. *)
Variable float_field : json -> string * string + float.

(** predict.py lines 21-25: the first path that exists. *)
Definition model_path : option string := find path_exists possible_paths.

(** [predict_data(X)], predict.py lines 6-32. *)
Definition predict_data (X : list (list float)) : result (list Z) :=
  match model_path with
  | None => Raise model_not_found
  | Some path =>
      model <-? joblib_load path ;;
      predict model X
  end.

(** predict.py lines 67-70: the dict comprehension over
    [enumerate(y_proba[0])]. *)
Fixpoint probabilities_from (i : nat) (probs : list float) (acc : pydict)
  : result pydict :=
  match probs with
  | [] => Ok acc
  | prob :: rest =>
      name <-? index_or_raise target_names (Z.of_nat i) ;;
      probabilities_from (S i) rest (dict_set acc name (JFloat prob))
  end.

(** [predict_with_prob(X)], predict.py lines 34-73. *)
Definition predict_with_prob (X : list (list float)) : result json :=
  match model_path with
  | None => Raise model_not_found
  | Some path =>
      model <-? joblib_load path ;;
      y_pred <-? predict model X ;;
      y_proba <-? predict_proba model X ;;
      label <-? index_or_raise y_pred 0 ;;
      class_name <-? index_or_raise target_names label ;;
      row <-? index_or_raise y_proba 0 ;;
      probabilities <-? probabilities_from 0 row [] ;;
      Ok (JDict [("prediction", JInt label);
                 ("class_name", JStr class_name);
                 ("probabilities", JDict probabilities)])
  end.

(** [predict_wine], main.py lines 45-74, once the body has been decoded
    into a [WineData]. *)
Definition predict_wine (wine_features : WineData) : http_response :=
  let body :=
    prediction <-? predict_data (features_of wine_features) ;;
    label <-? index_or_raise prediction 0 ;;
    class_name <-? index_or_raise target_names label ;;
    Ok (JDict [("prediction", JInt label); ("class_name", JStr class_name)])
  in
  match body with
  | Ok b => Http 200 b
  | Raise e => http_exception_500 e
  end.

(** [predict_wine_with_probability], main.py lines 76-101. *)
Definition predict_wine_with_probability (wine_features : WineData)
  : http_response :=
  match predict_with_prob (features_of wine_features) with
  | Ok b => Http 200 b
  | Raise e => http_exception_500 e
  end.

(** Modelled from the spec: the decoding of a request body into
    [WineData], which the web framework derives from the class declaration
    (main.py lines 13-26) and the handler's parameter (lines 46 and 77); no
    code among the sources performs it.  The body must be an object and
    every declared field must be present and pass the float validator.
    All entries are reported together, in declaration order, "a structured
    validation-error body ... whose error-list entries carry a msg field".
    On one point the model follows the declaration and not the
    specification: section 4.1 has extra fields rejected, but the class of
    main.py lines 13-26 sets no configuration that forbids them, and keys
    it does not declare are then ignored. *)
Definition field_entry (body : json) (fields : pydict) (name : string)
  : list json :=
  match dict_get fields name with
  | None =>
      [JDict [("type", JStr "missing");
              ("loc", JList [JStr "body"; JStr name]);
              ("msg", JStr "Field required");
              ("input", body)]]
  | Some v =>
      match float_field v with
      | inl (ty, msg) =>
          [JDict [("type", JStr ty);
                  ("loc", JList [JStr "body"; JStr name]);
                  ("msg", JStr msg);
                  ("input", v)]]
      | inr _ => []
      end
  end.

Definition field_value (fields : pydict) (name : string) : float :=
  match dict_get fields name with
  | Some v => match float_field v with inr x => x | inl _ => 0%float end
  | None => 0%float
  end.

Definition decode_WineData (body : json) : list json + WineData :=
  match body with
  | JDict fields =>
      match flat_map (field_entry body fields) WineData_fields with
      | [] =>
          let get := field_value fields in
          inr (MkWineData (get "alcohol") (get "malic_acid") (get "ash")
                 (get "alcalinity_of_ash") (get "magnesium")
                 (get "total_phenols") (get "flavanoids")
                 (get "nonflavanoid_phenols") (get "proanthocyanins")
                 (get "color_intensity") (get "hue")
                 (get "od280_od315_of_diluted_wines") (get "proline"))
      | entries => inl entries
      end
  | _ =>
      inl [JDict [("type", JStr "model_attributes_type");
                  ("loc", JList [JStr "body"]);
                  ("msg", JStr msg_model_attributes_type);
                  ("input", body)]]
  end.

(** A route declared with a [WineData] parameter: the handler runs only
    on a body that decodes; otherwise the framework answers 422 with the
    entries under ["detail"]. *)
Definition route (handler : WineData -> http_response) (body : json)
  : http_response :=
  match decode_WineData body with
  | inr wine_features => handler wine_features
  | inl entries => Http 422 (JDict [("detail", JList entries)])
  end.

(** [POST /predict] and [POST /predict-with-probability]. *)
Definition post_predict : json -> http_response := route predict_wine.

Definition post_predict_with_probability : json -> http_response :=
  route predict_wine_with_probability.

End Backend.

(** The fields of a successful response, read back from its body. *)
Definition response_prediction (r : http_response) : option Z :=
  match http_body r with
  | JDict fields =>
      match dict_get fields "prediction" with
      | Some (JInt n) => Some n
      | _ => None
      end
  | _ => None
  end.

Definition response_class_name (r : http_response) : option string :=
  match http_body r with
  | JDict fields =>
      match dict_get fields "class_name" with
      | Some (JStr s) => Some s
      | _ => None
      end
  | _ => None
  end.

(* ===================================================================== *)
(** ** Concrete worlds and services for the examples                      *)
(* ===================================================================== *)

Module Fixtures.

(** A scripted network: each call consumes the next prepared outcome; an
    exhausted script refuses the connection. *)
Definition script : Type := list (result response * float).

Definition scripted_post (w : script) (url : string) (payload : json)
           (timeout : float) : result response * float * script :=
  match w with
  | [] => (Raise (Exn "ConnectionError" "connection refused"), 0%float, [])
  | (r, seconds) :: rest => (r, seconds, rest)
  end.

(** [str()] on the values the examples pass to it: a string is its own
    text, [None], [True] and [False] print as such.  No example applies
    it to a number or a container. *)
Definition str_of_text (x : json) : string :=
  match x with
  | JStr s => s
  | JNull => "None"
  | JBool true => "True"
  | JBool false => "False"
  | _ => "..."
  end.

(** The 422 body of the single-record endpoint for a list payload. *)
Definition object_expected (payload : json) : json :=
  JDict [("detail",
          JList [JDict [("type", JStr "model_attributes_type");
                        ("loc", JList [JStr "body"]);
                        ("msg", JStr msg_model_attributes_type);
                        ("input", payload)]])].

Definition rejects_list (payload : json) : response :=
  Response 422 (Some (object_expected payload)) "(json)".

(** A 422 body that reports a missing field. *)
Definition field_required : json :=
  JDict [("detail",
          JList [JDict [("type", JStr "missing");
                        ("loc", JList [JStr "body"; JStr "alcohol"]);
                        ("msg", JStr "Field required")]])].

Definition predicted (label : Z) (name : string) : response :=
  Response 200
    (Some (JDict [("prediction", JInt label); ("class_name", JStr name)]))
    "(json)".

Definition timed_out : py_exn := Exn "ReadTimeout" "Read timed out.".

Definition start (w : script) : client_state script := ClientState w [].

Definition rec1 : json := JDict [("alcohol", JFloat 13)].
Definition rec2 : json := JDict [("alcohol", JFloat 12.5)].
Definition rec3 : json := JDict [("alcohol", JFloat 14)].

Definition batch : list json := [rec1; rec2; rec3].

(** The 500 answer of a service that has no model file. *)
Definition not_found_500 : response :=
  Response 500
    (Some (JDict [("detail", JStr "Wine model not found. Please run train.py first to create the model.")]))
    "(json)".

(** A single-record endpoint answering a batch of three: the list is
    refused with the object-expected entry; then the first record is
    scored, the call for the second times out after fifteen seconds, and
    the third is answered 500. *)
Definition three_items : script :=
  [(Ok (rejects_list (JList batch)), 0.25%float);
   (Ok (predicted 0 "class_0"), 0.5%float);
   (Raise timed_out, 15%float);
   (Ok not_found_500, 0.125%float)].

(** The same endpoint when the calls for the first two records both time
    out and the third record is scored. *)
Definition two_timeouts : script :=
  [(Ok (rejects_list (JList batch)), 0.25%float);
   (Raise timed_out, 15%float);
   (Raise timed_out, 15%float);
   (Ok (predicted 2 "class_2"), 0.5%float)].

(** An endpoint that takes lists: it answers the batch itself with 200.
    What would follow in the script is never asked for. *)
Definition batch_scored : json :=
  JList [JDict [("prediction", JInt 0); ("class_name", JStr "class_0")];
         JDict [("prediction", JInt 1); ("class_name", JStr "class_1")];
         JDict [("prediction", JInt 2); ("class_name", JStr "class_2")]].

Definition accepts_list : script :=
  [(Ok (Response 200 (Some batch_scored) "(json)"), 0.5%float);
   (Ok (predicted 0 "class_0"), 0.5%float)].

(** An endpoint that refuses the empty list as it refuses any list. *)
Definition refuses_empty : script :=
  [(Ok (rejects_list (JList [])), 0.25%float)].

(** An endpoint that cannot be reached within the timeout. *)
Definition unreachable : script := [(Raise timed_out, 15%float)].

(** An endpoint that answers 422 for another reason. *)
Definition missing_field : script :=
  [(Ok (Response 422 (Some field_required) "(json)"), 0.25%float)].

(** A float validator for the examples: JSON numbers pass (integers below
    2^63 in size are converted), everything else is reported. *)
Definition number_field (v : json) : string * string + float :=
  match v with
  | JFloat x => inr x
  | JInt n =>
      if (0 <=? n)%Z then inr (PrimFloat.of_uint63 (Uint63.of_Z n))
      else inr (- PrimFloat.of_uint63 (Uint63.of_Z (- n)))%float
  | _ => inl ("float_type", "Input should be a valid number")
  end.

(** The record of the specification's round-trip example. *)
Definition sample_record : json :=
  JDict [("alcohol", JFloat 13); ("malic_acid", JFloat 1.7);
         ("ash", JFloat 2.4); ("alcalinity_of_ash", JFloat 15);
         ("magnesium", JInt 100); ("total_phenols", JFloat 2.8);
         ("flavanoids", JFloat 3); ("nonflavanoid_phenols", JFloat 0.3);
         ("proanthocyanins", JFloat 1.8); ("color_intensity", JFloat 5);
         ("hue", JFloat 1); ("od280_od315_of_diluted_wines", JFloat 3);
         ("proline", JInt 1000)].

(** The same record with a fourteenth key that [WineData] does not
    declare. *)
Definition labelled_record : json :=
  match sample_record with
  | JDict fields => JDict (fields ++ [("vintage", JInt 2019)])
  | other => other
  end.

Definition class_labels : list string := ["class_0"; "class_1"; "class_2"].

(** An estimator that answers every row with the same label and the same
    distribution. *)
Definition constant_estimator (label : Z) (probs : list float) : estimator :=
  Estimator (fun X => Ok (map (fun _ => label) X))
            (fun X => Ok (map (fun _ => probs) X)).

(** File systems: no model file anywhere; a model file at the second
    known path. *)
Definition no_file (path : string) : bool := false.

Definition trained (path : string) : bool :=
  String.eqb path "../model/wine_model.pkl".

Definition loads (m : estimator) (path : string) : result estimator := Ok m.

Definition load_fails (e : py_exn) (path : string) : result estimator :=
  Raise e.

End Fixtures.

(* ===================================================================== *)
(** ** Dashboard.py: the page around the client (run)                     *)
(* ===================================================================== *)

(** Dashboard.py lines 16-21. *)
Definition WINE_FEATURES : list string :=
  ["alcohol"; "malic_acid"; "ash"; "alcalinity_of_ash"; "magnesium";
   "total_phenols"; "flavanoids"; "nonflavanoid_phenols";
   "proanthocyanins"; "color_intensity"; "hue";
   "od280_od315_of_diluted_wines"; "proline"].

(** Dashboard.py lines 24-28. *)
Definition CLASS_INDEX_TO_LABEL : list (Z * string) :=
  [(0%Z, "Cultivar A (class_0)");
   (1%Z, "Cultivar B (class_1)");
   (2%Z, "Cultivar C (class_2)")].

(** The truth value of a decoded JSON value, as [if x:] tests it. *)
Definition truthy (x : json) : bool :=
  match x with
  | JNull => false
  | JBool b => b
  | JInt n => negb (n =? 0)%Z
  | JFloat f => negb (f =? 0)%float
  | JStr s => negb (String.eqb s EmptyString)
  | JList items => match items with [] => false | _ => true end
  | JDict fields => match fields with [] => false | _ => true end
  end.

(** The radio of line 150. *)
Inductive input_mode : Type :=
| Manual_single
| JSON_upload_single
| JSON_upload_batch.

(** Lines 153-163: [manual_inputs = {}] filled with one number per feature,
    in the order of [WINE_FEATURES]; [number_input f] is what the widget
    for feature [f] holds. *)
Definition manual_inputs (number_input : string -> float) : json :=
  JDict (fold_left (fun d f => dict_set d f (JFloat (number_input f)))
                   WINE_FEATURES []).

(** Lines 203-217: the payload of the page.  [uploaded] is
    [st.session_state.get("UPLOADED_JSON")], [None] when nothing is
    stored.  When normalizing raises, the message is shown and the payload
    is [None]. *)
Definition prepare_payload (mode : input_mode) (manual : json)
           (uploaded : option json) : option json :=
  match mode with
  | Manual_single => Some manual
  | _ =>
      match uploaded with
      | Some uploaded_json =>
          if truthy uploaded_json then
            match normalize_uploaded_json uploaded_json with
            | Ok normalized => Some normalized
            | Raise _ => None
            end
          else None
      | None => None
      end
  end.

(** Lines 221-228: what the input preview shows, [None] for the "No input
    ready" note; [payload[0]] is outside every [try]. *)
Definition input_preview (payload : option json) : result (option json) :=
  match payload with
  | None => Ok None
  | Some (JList items) =>
      first <-? index_or_raise items 0 ;;
      Ok (Some (JDict [("input_preview", first)]))
  | Some p => Ok (Some (JDict [("input_preview", p)]))
  end.

(** Line 302: [payload if isinstance(payload, dict) else {"input": payload}]. *)
Definition predict_body (payload : json) : json :=
  if is_dict payload then payload else JDict [("input", payload)].

(** What a button leaves on the page. *)
Inductive page : Type :=
| Error_shown (msg : string)
| Response_processed (resp : response) (elapsed : float)
| Batch_returned (result : json) (elapsed_total : float)
| Batch_failed (result_or_err : json).

Section Page.

Variable World : Type.
Variable requests_post :
  World -> string -> json -> float -> result response * float * World.
Variable py_str : json -> string.

(** Lines 296-303: "Predict (single)".  An exception of [call_api] leaves
    the block. *)
Definition predict_clicked (payload : option json)
  : M (client_state World) (result page) :=
  match payload with
  | None => ret (Ok (Error_shown "No input provided."))
  | Some p =>
      r <- call_api requests_post "/predict" (predict_body p) 15%float ;;
      match r with
      | Ok (resp, elapsed) => ret (Ok (Response_processed resp elapsed))
      | Raise e => ret (Raise e)
      end
  end.

(** Lines 311-318 and 343-349: a batch sent to
    [/predict-with-probability] and its outcome shown. *)
Definition send_batch (records : list json)
  : M (client_state World) (result page) :=
  ' (ok, result_or_err, elapsed_total) <-
      try_batch_with_fallback requests_post py_str
        "/predict-with-probability" records ;;
  if ok : bool then ret (Ok (Batch_returned result_or_err elapsed_total))
  else ret (Ok (Batch_failed result_or_err)).

(** Lines 305-323: "Predict with probabilities". *)
Definition proba_clicked (payload : option json)
  : M (client_state World) (result page) :=
  match payload with
  | None => ret (Ok (Error_shown "No input provided."))
  | Some (JList records) => send_batch records
  | Some p =>
      r <- call_api requests_post "/predict-with-probability" p 15%float ;;
      match r with
      | Ok (resp, elapsed) => ret (Ok (Response_processed resp elapsed))
      | Raise e => ret (Raise e)
      end
  end.

(** Lines 326-349 taken alone: the block of "Batch predict (upload
    list)", which reads the stored upload itself.  [run] reaches it only
    after it has prepared and previewed the payload; [batch_pressed] below
    is the block in its place. *)
Definition batch_clicked (uploaded : option json)
  : M (client_state World) (result page) :=
  match uploaded with
  | None =>
      ret (Ok (Error_shown "Please upload a JSON file containing a list of records for batch prediction."))
  | Some uploaded_json =>
      if negb (truthy uploaded_json) then
        ret (Ok (Error_shown "Please upload a JSON file containing a list of records for batch prediction."))
      else
        match normalize_uploaded_json uploaded_json with
        | Raise e => ret (Ok (Error_shown (exn_text e)))
        | Ok (JList records) => send_batch records
        | Ok _ =>
            ret (Ok (Error_shown "Uploaded JSON is not a list. For batch prediction upload JSON with a list of records (or input_batch)."))
        end
  end.

(** Lines 253-260, inside [process_response]: the label shown for a decoded
    200 body.  [out.get] needs a dict; the lookup in [CLASS_INDEX_TO_LABEL]
    compares the key with 0, 1 and 2 by value and raises on a list or a
    dict; both exceptions reach the [except] of line 290. *)
Definition class_index_key (pred_index : json) : result (option Z) :=
  match pred_index with
  | JInt n => Ok (Some n)
  | JBool b => Ok (Some (if b then 1 else 0)%Z)
  | JFloat f =>
      Ok (if (f =? 0)%float then Some 0%Z
          else if (f =? 1)%float then Some 1%Z
          else if (f =? 2)%float then Some 2%Z
          else None)
  | JNull => Ok None
  | JStr _ => Ok None
  | JList _ => Raise (Exn "TypeError" "unhashable type: 'list'")
  | JDict _ => Raise (Exn "TypeError" "unhashable type: 'dict'")
  end.

Definition label_of_index (n : Z) : option string :=
  option_map snd (find (fun kv => (fst kv =? n)%Z) CLASS_INDEX_TO_LABEL).

Definition friendly (out : json) : result json :=
  match out with
  | JDict o =>
      let pred_index := dict_get_default o "prediction" JNull in
      let api_class_name := dict_get_default o "class_name" JNull in
      let default :=
        if truthy api_class_name then api_class_name
        else JStr (py_str pred_index) in
      key <-? class_index_key pred_index ;;
      match key with
      | Some n =>
          match label_of_index n with
          | Some label => Ok (JStr label)
          | None => Ok default
          end
      | None => Ok default
      end
  | _ => Raise (Exn "AttributeError" "object has no attribute 'get'")
  end.

End Page.

Arguments predict_clicked {World} requests_post payload _.
Arguments send_batch {World} requests_post py_str records _.
Arguments proba_clicked {World} requests_post py_str payload _.
Arguments batch_clicked {World} requests_post py_str uploaded _.

Section PageRun.

Variable World : Type.
Variable requests_post :
  World -> string -> json -> float -> result response * float * World.
Variable py_str : json -> string.

(** Lines 203-228 and 326-349 in the order [run] executes them, for a run
    of the page in which "Batch predict (upload list)" is the button
    pressed: the payload is prepared and previewed first, and an exception
    of the preview ends the run before any button is looked at.  [uploaded]
    is the upload held in the session, which in the manual mode is the one
    left by an earlier run. *)
Definition batch_pressed (mode : input_mode) (number_input : string -> float)
           (uploaded : option json) : M (client_state World) (result page) :=
  match input_preview
          (prepare_payload mode (manual_inputs number_input) uploaded) with
  | Raise e => ret (Raise e)
  | Ok _ => batch_clicked requests_post py_str uploaded
  end.

End PageRun.

Arguments batch_pressed {World} requests_post py_str mode number_input
  uploaded _.

(** JSON on the wire.  A float that is not finite has no JSON text:
    [requests] refuses to encode a payload that holds one, and in a
    response body the service writes [null] in its place. *)
Fixpoint finite_json (x : json) : bool :=
  match x with
  | JFloat f => PrimFloat.is_finite f
  | JList items => forallb finite_json items
  | JDict fields => forallb (fun '(_, v) => finite_json v) fields
  | _ => true
  end.

Fixpoint to_wire (x : json) : json :=
  match x with
  | JFloat f => if PrimFloat.is_finite f then x else JNull
  | JList items => JList (map to_wire items)
  | JDict fields => JDict (map (fun '(k, v) => (k, to_wire v)) fields)
  | _ => x
  end.

Definition InvalidJSONError : py_exn :=
  Exn "InvalidJSONError" "Out of range float values are not JSON compliant".

(* ===================================================================== *)
(** ** The dashboard talking to the service of main.py                    *)
(* ===================================================================== *)

Section Loopback.

Variable path_exists : string -> bool.
Variable joblib_load : string -> result estimator.
Variable target_names : list string.
Variable float_field : json -> string * string + float.

(** The text of a response body and the seconds a request takes. *)
Variable body_text : json -> string.
Variable seconds_for : string -> json -> float.

(** main.py lines 45 and 76: the two [POST] routes of [app], reached at the
    address the dashboard uses; a path that no route declares is answered
    404. *)
Definition app (url : string) (body : json) : http_response :=
  if String.eqb url (url_of "/predict") then
    post_predict path_exists joblib_load target_names float_field body
  else if String.eqb url (url_of "/predict-with-probability") then
    post_predict_with_probability path_exists joblib_load target_names
                                  float_field body
  else Http 404 (JDict [("detail", JStr "Not Found")]).

(** A network whose other end is [app]: a payload that can be written as
    JSON is always answered, and the client reads the body as the service
    wrote it; a payload that holds a float which is not finite is refused
    before anything is sent. *)
Definition served_post (w : unit) (url : string) (payload : json)
           (timeout : float) : result response * float * unit :=
  if finite_json payload then
    let r := app url payload in
    (Ok (Response (http_status r) (Some (to_wire (http_body r)))
                  (body_text (to_wire (http_body r)))),
     seconds_for url payload, tt)
  else (Raise InvalidJSONError, seconds_for url payload, tt).

(** The entry that the fallback loop keeps for a record answered by the
    probability route. *)
Definition served_entry (rec : json) : json :=
  let r := post_predict_with_probability path_exists joblib_load target_names
                                         float_field rec in
  if (http_status r =? 200)%Z then to_wire (http_body r)
  else JDict [("error", to_wire (http_body r));
              ("status", JInt (http_status r))].

End Loopback.

(** The entry that reports a missing field of the request body. *)
Definition missing_entry (body : json) (name : string) : json :=
  JDict [("type", JStr "missing");
         ("loc", JList [JStr "body"; JStr name]);
         ("msg", JStr "Field required");
         ("input", body)].

(** A field of a request body that is present and passes the validator
    with value [x]. *)
Definition field_accepted (float_field : json -> string * string + float)
           (fields : pydict) (name : string) (x : float) : Prop :=
  exists v, dict_get fields name = Some v /\ float_field v = inr x.

(** The sum of the seconds of a list of requests, added to [t] in order. *)
Definition add_seconds (t : float) (l : list float) : float :=
  fold_left PrimFloat.add l t.

(* ===================================================================== *)
(** ** Text lemmas                                                        *)
(* ===================================================================== *)

Lemma prefix_occurs (p s : string) :
  String.prefix p s = true -> exists after, s = (p ++ after)%string.
Proof.
  revert s; induction p as [|c p IH]; intros s H.
  - exists s; reflexivity.
  - destruct s as [|c' s]; simpl in H; [discriminate|].
    destruct (Ascii.ascii_dec c c') as [->|]; [|discriminate].
    destruct (IH _ H) as [after ->]. exists after; reflexivity.
Qed.

Lemma occurs_prefix (p after : string) : String.prefix p (p ++ after)%string = true.
Proof.
  induction p as [|c p IH]; simpl.
  - destruct after; reflexivity.
  - destruct (Ascii.ascii_dec c c); [assumption|congruence].
Qed.

Lemma str_contains_sound (needle hay : string) :
  str_contains needle hay = true -> occurs_in needle hay.
Proof.
  induction hay as [|c hay IH].
  - unfold str_contains.
    destruct (String.prefix needle EmptyString) eqn:E; [|intros H; discriminate H].
    intros _. destruct (prefix_occurs _ _ E) as [after Heq].
    exists EmptyString, after; exact Heq.
  - change (str_contains needle (String c hay))
      with (if String.prefix needle (String c hay) then true
            else str_contains needle hay).
    destruct (String.prefix needle (String c hay)) eqn:E.
    + intros _. destruct (prefix_occurs _ _ E) as [after Heq].
      exists EmptyString, after; exact Heq.
    + intros H. destruct (IH H) as (before & after & Heq).
      exists (String c before), after; rewrite Heq; reflexivity.
Qed.

Lemma prefix_str_contains (needle hay : string) :
  String.prefix needle hay = true -> str_contains needle hay = true.
Proof. intros H. destruct hay; unfold str_contains; rewrite H; reflexivity. Qed.

Lemma str_contains_complete (needle hay : string) :
  occurs_in needle hay -> str_contains needle hay = true.
Proof.
  intros (before & after & ->).
  induction before as [|c before IH].
  - change (str_contains needle (needle ++ after)%string = true).
    apply prefix_str_contains, occurs_prefix.
  - change (String c before ++ needle ++ after)%string
      with (String c (before ++ needle ++ after)%string).
    change (str_contains needle (String c (before ++ needle ++ after)))
      with (if String.prefix needle (String c (before ++ needle ++ after))
            then true else str_contains needle (before ++ needle ++ after)).
    rewrite IH. destruct (String.prefix _ _); reflexivity.
Qed.

Lemma str_contains_iff (needle hay : string) :
  str_contains needle hay = true <-> occurs_in needle hay.
Proof. split; [apply str_contains_sound|apply str_contains_complete]. Qed.

(* ===================================================================== *)
(** ** normalize_uploaded_json                                            *)
(* ===================================================================== *)

Lemma normalize_dict_batch (d : pydict) (records : list json) :
  dict_get d "input_batch" = Some (JList records) ->
  normalize_uploaded_json (JDict d) = Ok (JList records).
Proof.
  intros H. unfold normalize_uploaded_json, dict_has, dict_get_default.
  rewrite H. reflexivity.
Qed.

Lemma normalize_dict_no_batch (d : pydict) :
  (forall records, dict_get d "input_batch" <> Some (JList records)) ->
  normalize_uploaded_json (JDict d) =
  match dict_get d "input" with
  | Some (JDict record) => Ok (JDict record)
  | _ => Ok (JDict d)
  end.
Proof.
  intros H. unfold normalize_uploaded_json, dict_has, dict_get_default.
  destruct (dict_get d "input_batch") as [v|] eqn:Eb.
  - destruct v; try (now destruct (dict_get d "input") as [[]|]).
    exfalso. exact (H _ eq_refl).
  - now destruct (dict_get d "input") as [[]|].
Qed.

(** C7.  The four accepted shapes and the rejected rest: a dict whose
    ["input_batch"] is a list, and a bare list, normalize to that ordered
    list of records; a dict whose ["input"] is an object (and that carries
    no ["input_batch"] list) normalizes to that object; a dict with neither
    wrapper key is taken as the record itself; a value that is neither a
    dict nor a list raises [ValueError]. *)
Theorem normalize_uploaded_json_shapes :
  (forall records,
      normalize_uploaded_json (JDict [("input_batch", JList records)])
      = Ok (JList records)) /\
  (forall d records,
      dict_get d "input_batch" = Some (JList records) ->
      normalize_uploaded_json (JDict d) = Ok (JList records)) /\
  (forall records,
      normalize_uploaded_json (JList records) = Ok (JList records)) /\
  (forall record,
      normalize_uploaded_json (JDict [("input", JDict record)])
      = Ok (JDict record)) /\
  (forall d record,
      (forall records, dict_get d "input_batch" <> Some (JList records)) ->
      dict_get d "input" = Some (JDict record) ->
      normalize_uploaded_json (JDict d) = Ok (JDict record)) /\
  (forall d,
      dict_get d "input_batch" = None -> dict_get d "input" = None ->
      normalize_uploaded_json (JDict d) = Ok (JDict d)) /\
  (forall x,
      is_dict x = false -> is_list x = false ->
      normalize_uploaded_json x = Raise ValueError_not_recognized).
Proof.
  repeat apply conj.
  - intros records. reflexivity.
  - intros d records. apply normalize_dict_batch.
  - intros records. reflexivity.
  - intros record. reflexivity.
  - intros d record Hb Hi. rewrite normalize_dict_no_batch by exact Hb.
    rewrite Hi. reflexivity.
  - intros d Hb Hi. rewrite normalize_dict_no_batch.
    + rewrite Hi. reflexivity.
    + intros records. rewrite Hb. discriminate.
  - intros x Hd Hl. destruct x; try reflexivity; discriminate.
Qed.

Lemma normalize_uploaded_json_shapes_witness :
  normalize_uploaded_json
    (JDict [("note", JStr "two wines");
            ("input_batch", JList [Fixtures.rec1; Fixtures.rec2])])
  = Ok (JList [Fixtures.rec1; Fixtures.rec2]) /\
  normalize_uploaded_json
    (JDict [("input_batch", JStr "none"); ("input", Fixtures.sample_record)])
  = Ok Fixtures.sample_record /\
  normalize_uploaded_json Fixtures.sample_record = Ok Fixtures.sample_record /\
  normalize_uploaded_json (JInt 7) = Raise ValueError_not_recognized.
Proof.
  destruct normalize_uploaded_json_shapes
    as (_ & Hbatch & _ & _ & Hinput & Hflat & Hother).
  split; [|split; [|split]].
  - apply Hbatch. reflexivity.
  - apply Hinput.
    + intros records. simpl. discriminate.
    + reflexivity.
  - apply Hflat; reflexivity.
  - apply Hother; reflexivity.
Defined.

(** C10.  A dict whose ["input"] is a list is returned whole, as if it were
    one flat record: the list under ["input"] is not extracted.  When
    ["input_batch"] maps to a list and ["input"] is present as well,
    ["input_batch"] wins, whatever ["input"] holds. *)
Theorem normalize_uploaded_json_input_list :
  (forall d items,
      dict_get d "input" = Some (JList items) ->
      (forall records, dict_get d "input_batch" <> Some (JList records)) ->
      normalize_uploaded_json (JDict d) = Ok (JDict d)) /\
  (forall d records v,
      dict_get d "input_batch" = Some (JList records) ->
      dict_get d "input" = Some v ->
      normalize_uploaded_json (JDict d) = Ok (JList records)).
Proof.
  split.
  - intros d items Hi Hb. rewrite normalize_dict_no_batch by exact Hb.
    rewrite Hi. reflexivity.
  - intros d records v Hb _. apply normalize_dict_batch, Hb.
Qed.

Lemma normalize_uploaded_json_input_list_witness :
  normalize_uploaded_json
    (JDict [("input", JList [Fixtures.rec1; Fixtures.rec2])])
  = Ok (JDict [("input", JList [Fixtures.rec1; Fixtures.rec2])]) /\
  normalize_uploaded_json
    (JDict [("input", Fixtures.rec3);
            ("input_batch", JList [Fixtures.rec1; Fixtures.rec2])])
  = Ok (JList [Fixtures.rec1; Fixtures.rec2]).
Proof.
  destruct normalize_uploaded_json_input_list as (Hlist & Hboth).
  split.
  - apply (Hlist _ [Fixtures.rec1; Fixtures.rec2]).
    + reflexivity.
    + intros records. simpl. discriminate.
  - apply (Hboth _ _ Fixtures.rec3); reflexivity.
Defined.

(* ===================================================================== *)
(** ** The scan of the 422 payload                                        *)
(* ===================================================================== *)

Section Scan.

Variable py_str : json -> string.

Lemma entry_matches_iff (d : json) :
  entry_matches py_str d = true <-> entry_has_signature py_str d.
Proof.
  unfold entry_matches, entry_has_signature. split.
  - destruct d as [| | | | |items|fields]; try discriminate.
    destruct (dict_get fields "msg") as [msg|] eqn:E; [|discriminate].
    intros H. exists fields, msg. repeat apply conj; try reflexivity.
    + exact E.
    + apply str_contains_sound, H.
  - intros (fields & msg & -> & E & H). rewrite E.
    apply str_contains_complete, H.
Qed.

Lemma should_fallback_iff (resp : response) :
  should_fallback py_str resp = true <-> has_signature py_str resp.
Proof.
  unfold should_fallback, has_signature, dict_get_default. split.
  - destruct (json_body resp) as [[| | | | |items|err]|]; try discriminate.
    destruct (dict_get err "detail") as [[| | | | |detail|fields]|] eqn:E;
      try discriminate.
    intros H. apply existsb_exists in H. destruct H as (d & Hin & Hd).
    exists err, detail, d. repeat apply conj; try reflexivity; try assumption.
    apply entry_matches_iff, Hd.
  - intros (err & detail & d & -> & E & Hin & Hd). rewrite E.
    apply existsb_exists. exists d. split; [exact Hin|].
    apply entry_matches_iff, Hd.
Qed.

Lemma should_fallback_false (resp : response) :
  ~ has_signature py_str resp -> should_fallback py_str resp = false.
Proof.
  intros H. destruct (should_fallback py_str resp) eqn:E; [|reflexivity].
  exfalso. apply H, should_fallback_iff, E.
Qed.

End Scan.

(* ===================================================================== *)
(** ** Runs of call_api and of the fallback loop                          *)
(* ===================================================================== *)

Section Runs.

Variable World : Type.
Variable requests_post :
  World -> string -> json -> float -> result response * float * World.

Lemma call_api_run endpoint payload timeout (st : client_state World)
      r seconds w :
  requests_post (world st) (url_of endpoint) payload timeout = (r, seconds, w) ->
  call_api requests_post endpoint payload timeout st
  = (handed_back r seconds,
     ClientState w (trips st ++ [RoundTrip (url_of endpoint) payload r seconds])).
Proof.
  intros H. unfold call_api. fold (url_of endpoint). rewrite H.
  destruct r; reflexivity.
Qed.

(** The loop makes one round trip per record, in order; each appends its
    own entry; only the trips that brought a response add to the time. *)
Lemma fallback_loop_run endpoint records :
  forall aggregated elapsed_total (st : client_state World),
  exists item_trips w,
    fallback_loop requests_post endpoint records aggregated elapsed_total st
    = ((aggregated ++ map trip_entry item_trips,
        fold_left PrimFloat.add (flat_map measured item_trips) elapsed_total),
       ClientState w (trips st ++ item_trips)) /\
    map rt_payload item_trips = records /\
    Forall (fun tr => rt_url tr = url_of endpoint) item_trips.
Proof.
  induction records as [|rec rest IH]; intros aggregated elapsed_total st.
  - exists [], (world st). simpl. rewrite !app_nil_r.
    destruct st; repeat apply conj; constructor.
  - destruct (requests_post (world st) (url_of endpoint) rec 15%float)
      as [[r seconds] w] eqn:E.
    cbn [fallback_loop]. unfold bind.
    rewrite (call_api_run _ _ _ _ _ _ _ E).
    set (tr := RoundTrip (url_of endpoint) rec r seconds).
    destruct r as [single_resp|e]; cbn [handed_back].
    + destruct (IH (aggregated ++ [response_entry single_resp])
                   (elapsed_total + seconds)%float
                   (ClientState w (trips st ++ [tr])))
        as (item_trips & w' & Hrun & Hpay & Hurl).
      exists (tr :: item_trips), w'. rewrite Hrun. cbn [trips world].
      rewrite <- !app_assoc. repeat apply conj.
      * reflexivity.
      * cbn. now rewrite Hpay.
      * constructor; [reflexivity|exact Hurl].
    + destruct (IH (aggregated ++ [transport_error_entry e rec])
                   elapsed_total
                   (ClientState w (trips st ++ [tr])))
        as (item_trips & w' & Hrun & Hpay & Hurl).
      exists (tr :: item_trips), w'. rewrite Hrun. cbn [trips world].
      rewrite <- !app_assoc. repeat apply conj.
      * reflexivity.
      * cbn. now rewrite Hpay.
      * constructor; [reflexivity|exact Hurl].
Qed.

(** The loop makes exactly the round trips of [post_each], threading the
    world through them. *)
Lemma fallback_loop_posts endpoint records :
  forall aggregated elapsed_total (st : client_state World),
    fallback_loop requests_post endpoint records aggregated elapsed_total st
    = ((aggregated
          ++ map trip_entry
                 (fst (post_each requests_post (world st) (url_of endpoint)
                                 records)),
        add_seconds elapsed_total
          (flat_map measured
             (fst (post_each requests_post (world st) (url_of endpoint)
                             records)))),
       ClientState
         (snd (post_each requests_post (world st) (url_of endpoint) records))
         (trips st
          ++ fst (post_each requests_post (world st) (url_of endpoint)
                            records))).
Proof.
  induction records as [|rec rest IH]; intros aggregated elapsed_total st.
  - cbn. rewrite !app_nil_r. destruct st; reflexivity.
  - destruct (requests_post (world st) (url_of endpoint) rec 15%float)
      as [[r seconds] w] eqn:E.
    cbn [fallback_loop post_each]. unfold bind.
    rewrite (call_api_run _ _ _ _ _ _ _ E), E.
    destruct (post_each requests_post w (url_of endpoint) rest)
      as [item_trips w'] eqn:Erest.
    cbn [fst snd].
    destruct r as [single_resp|e]; cbn [handed_back];
      rewrite IH; cbn [world trips]; rewrite Erest; cbn [fst snd map flat_map];
      unfold trip_entry at 2; cbn [rt_payload rt_result item_entry measured];
      rewrite <- !app_assoc; reflexivity.
Qed.

Lemma post_each_payloads (w : World) url records :
  map rt_payload (fst (post_each requests_post w url records)) = records.
Proof.
  revert w. induction records as [|rec rest IH]; intros w; [reflexivity|].
  cbn [post_each].
  destruct (requests_post w url rec 15%float) as [[r seconds] w1].
  specialize (IH w1).
  destruct (post_each requests_post w1 url rest) as [item_trips w'].
  cbn in *. now rewrite IH.
Qed.

Lemma post_each_length (w : World) url records :
  List.length (fst (post_each requests_post w url records))
  = List.length records.
Proof.
  rewrite <- (post_each_payloads w url records) at 2.
  now rewrite length_map.
Qed.

(** The i-th round trip is the answer of [requests_post] to the i-th
    record in the world that the first i round trips left. *)
Lemma post_each_nth url records :
  forall (w : World) i rec,
    nth_error records i = Some rec ->
    nth_error (fst (post_each requests_post w url records)) i
    = Some (RoundTrip url rec
              (fst (fst (requests_post
                           (snd (post_each requests_post w url
                                           (firstn i records)))
                           url rec 15%float)))
              (snd (fst (requests_post
                           (snd (post_each requests_post w url
                                           (firstn i records)))
                           url rec 15%float)))).
Proof.
  induction records as [|rec0 rest IH]; intros w i rec Hi.
  - destruct i; discriminate Hi.
  - destruct i as [|i].
    + inversion Hi; subst rec0. cbn [firstn post_each snd].
      destruct (requests_post w url rec 15%float) as [[r seconds] w1].
      destruct (post_each requests_post w1 url rest) as [item_trips w'].
      reflexivity.
    + cbn [nth_error] in Hi. cbn [firstn post_each].
      destruct (requests_post w url rec0 15%float) as [[r seconds] w1].
      specialize (IH w1 i rec Hi).
      destruct (post_each requests_post w1 url rest) as [item_trips w'].
      destruct (post_each requests_post w1 url (firstn i rest))
        as [before wi].
      cbn [fst snd nth_error] in *. exact IH.
Qed.

End Runs.

(* ===================================================================== *)
(** ** try_batch_with_fallback                                            *)
(* ===================================================================== *)

Section Negotiation.

Variable World : Type.
Variable requests_post :
  World -> string -> json -> float -> result response * float * World.
Variable py_str : json -> string.

Local Notation try_batch := (try_batch_with_fallback requests_post py_str).

(** The state after the optimistic attempt. *)
Local Notation after_first st endpoint records r seconds w :=
  (ClientState w
     (trips st ++ [RoundTrip (url_of endpoint) (JList records) r seconds])).

(** The per-record round trips from world [w] on, the world they leave, and
    the answer and the seconds of the call for record [rec] at position
    [i]. *)
Local Notation posted w endpoint records :=
  (fst (post_each requests_post w (url_of endpoint) records)).
Local Notation world_after w endpoint records :=
  (snd (post_each requests_post w (url_of endpoint) records)).
Local Notation answer_at w endpoint records i rec :=
  (fst (fst (requests_post
               (snd (post_each requests_post w (url_of endpoint)
                               (firstn i records)))
               (url_of endpoint) rec 15%float))).
Local Notation seconds_at w endpoint records i rec :=
  (snd (fst (requests_post
               (snd (post_each requests_post w (url_of endpoint)
                               (firstn i records)))
               (url_of endpoint) rec 15%float))).

Lemma try_batch_raised endpoint records (st : client_state World) e seconds w :
  requests_post (world st) (url_of endpoint) (JList records) 15%float
  = (Raise e, seconds, w) ->
  try_batch endpoint records st
  = ((false, JStr (request_failed e), 0%float),
     after_first st endpoint records (Raise e) seconds w).
Proof.
  intros H. unfold try_batch_with_fallback, bind.
  rewrite (call_api_run _ _ _ _ _ _ _ _ _ H). reflexivity.
Qed.

Lemma try_batch_accepted endpoint records (st : client_state World)
      resp seconds w :
  requests_post (world st) (url_of endpoint) (JList records) 15%float
  = (Ok resp, seconds, w) ->
  status_code resp = 200%Z ->
  try_batch endpoint records st
  = ((true, json_or_raw_text resp, (0 + seconds)%float),
     after_first st endpoint records (Ok resp) seconds w).
Proof.
  intros H H200. unfold try_batch_with_fallback, bind.
  rewrite (call_api_run _ _ _ _ _ _ _ _ _ H). cbn [handed_back].
  rewrite H200. reflexivity.
Qed.

Lemma try_batch_refused endpoint records (st : client_state World)
      resp seconds w :
  requests_post (world st) (url_of endpoint) (JList records) 15%float
  = (Ok resp, seconds, w) ->
  status_code resp <> 200%Z ->
  (status_code resp =? 422)%Z && should_fallback py_str resp = false ->
  try_batch endpoint records st
  = ((false, json_or_text resp, (0 + seconds)%float),
     after_first st endpoint records (Ok resp) seconds w).
Proof.
  intros H H200 Hno. unfold try_batch_with_fallback, bind.
  rewrite (call_api_run _ _ _ _ _ _ _ _ _ H). cbn [handed_back].
  apply Z.eqb_neq in H200. rewrite H200, Hno. reflexivity.
Qed.

Lemma try_batch_loop endpoint records (st : client_state World)
      resp seconds w :
  requests_post (world st) (url_of endpoint) (JList records) 15%float
  = (Ok resp, seconds, w) ->
  status_code resp = 422%Z ->
  should_fallback py_str resp = true ->
  try_batch endpoint records st
  = (let '(aggregated, elapsed_total, st') :=
         fallback_loop requests_post endpoint records [] (0 + seconds)%float
                       (after_first st endpoint records (Ok resp) seconds w) in
     ((true, JList aggregated, elapsed_total), st')).
Proof.
  intros H H422 Hyes. unfold try_batch_with_fallback, bind.
  rewrite (call_api_run _ _ _ _ _ _ _ _ _ H). cbn [handed_back].
  rewrite H422, Hyes. cbn.
  destruct (fallback_loop _ _ _ _ _ _) as [[aggregated elapsed_total] st'].
  reflexivity.
Qed.

(** The fallback path as a whole: the optimistic trip, then one trip per
    record in order; the entries are those of the item trips. *)
Lemma fallback_path endpoint records (st : client_state World)
      resp seconds w :
  requests_post (world st) (url_of endpoint) (JList records) 15%float
  = (Ok resp, seconds, w) ->
  status_code resp = 422%Z ->
  has_signature py_str resp ->
  exists item_trips w',
    try_batch endpoint records st
    = ((true, JList (map trip_entry item_trips),
        fold_left PrimFloat.add (flat_map measured item_trips)
                  (0 + seconds)%float),
       ClientState w'
         (trips st
          ++ RoundTrip (url_of endpoint) (JList records) (Ok resp) seconds
          :: item_trips)) /\
    map rt_payload item_trips = records /\
    Forall (fun tr => rt_url tr = url_of endpoint) item_trips.
Proof.
  intros H H422 Hsig. apply should_fallback_iff in Hsig.
  rewrite (try_batch_loop _ _ _ _ _ _ H H422 Hsig).
  destruct (fallback_loop_run World requests_post endpoint records []
              (0 + seconds)%float
              (after_first st endpoint records (Ok resp) seconds w))
    as (item_trips & w' & Hrun & Hpay & Hurl).
  exists item_trips, w'. rewrite Hrun. cbn [trips app].
  rewrite <- app_assoc. repeat apply conj; [reflexivity|exact Hpay|exact Hurl].
Qed.

Lemma nth_error_payloads (item_trips : list round_trip) records i rec :
  map rt_payload item_trips = records ->
  nth_error records i = Some rec ->
  exists tr, nth_error item_trips i = Some tr /\ rt_payload tr = rec.
Proof.
  intros <- H. rewrite nth_error_map in H.
  destruct (nth_error item_trips i) as [tr|]; [|discriminate].
  exists tr. split; [reflexivity|]. now inversion H.
Qed.

(** The fallback path in terms of the network: the optimistic post, then
    the posts of [post_each], the world threaded through all of them. *)
Lemma try_batch_fallback_posts endpoint records (st : client_state World)
      resp seconds w :
  requests_post (world st) (url_of endpoint) (JList records) 15%float
  = (Ok resp, seconds, w) ->
  status_code resp = 422%Z ->
  should_fallback py_str resp = true ->
  try_batch endpoint records st
  = ((true, JList (map trip_entry (posted w endpoint records)),
      add_seconds (0 + seconds)%float
                  (flat_map measured (posted w endpoint records))),
     ClientState (world_after w endpoint records)
       (trips st
        ++ RoundTrip (url_of endpoint) (JList records) (Ok resp) seconds
        :: posted w endpoint records)).
Proof.
  intros H H422 Hyes.
  rewrite (try_batch_loop _ _ _ _ _ _ H H422 Hyes).
  rewrite fallback_loop_posts. cbn [world trips app].
  rewrite <- app_assoc. reflexivity.
Qed.

(** C1.  When the optimistic batch call is answered 422 with the
    object-expected signature, the client makes N+1 round trips and no
    other: the batch attempt, then one call of [requests_post] per record
    in the original order, each in the world the call before left.  It
    returns success with a list of N entries, and the entry at position i
    is the one made from record i and the answer of its own call. *)
Theorem fallback_issues_one_call_per_record
        endpoint records (st : client_state World) resp seconds w :
  requests_post (world st) (url_of endpoint) (JList records) 15%float
  = (Ok resp, seconds, w) ->
  status_code resp = 422%Z ->
  has_signature py_str resp ->
  try_batch endpoint records st
  = ((true, JList (map trip_entry (posted w endpoint records)),
      add_seconds (0 + seconds)%float
                  (flat_map measured (posted w endpoint records))),
     ClientState (world_after w endpoint records)
       (trips st
        ++ RoundTrip (url_of endpoint) (JList records) (Ok resp) seconds
        :: posted w endpoint records)) /\
  List.length
    (RoundTrip (url_of endpoint) (JList records) (Ok resp) seconds
     :: posted w endpoint records)
  = (List.length records + 1)%nat /\
  List.length (map trip_entry (posted w endpoint records))
  = List.length records /\
  map rt_payload (posted w endpoint records) = records /\
  forall i rec,
    nth_error records i = Some rec ->
    nth_error (posted w endpoint records) i
    = Some (RoundTrip (url_of endpoint) rec
              (answer_at w endpoint records i rec)
              (seconds_at w endpoint records i rec)) /\
    nth_error (map trip_entry (posted w endpoint records)) i
    = Some (item_entry rec (answer_at w endpoint records i rec)).
Proof.
  intros H H422 Hsig. apply should_fallback_iff in Hsig.
  repeat apply conj.
  - exact (try_batch_fallback_posts _ _ _ _ _ _ H H422 Hsig).
  - cbn [List.length]. rewrite post_each_length. lia.
  - rewrite length_map. apply post_each_length.
  - apply post_each_payloads.
  - intros i rec Hi. pose proof (post_each_nth _ requests_post
                                   (url_of endpoint) records w i rec Hi) as Hn.
    split; [exact Hn|]. rewrite nth_error_map, Hn. reflexivity.
Qed.



(** C4, as the code has it.  The elapsed time returned is: 0.0 when the
    optimistic attempt raised; the optimistic attempt's elapsed time alone
    when it was answered 200 or with an error that does not trigger the
    fallback; and, on the fallback path, that time plus, in call order,
    the elapsed time of every per-item call that brought a response.  A
    per-item call on which [requests.post] raised adds nothing.  In each
    case the state shows the round trips that were made. *)
Theorem elapsed_total_sums_measured_trips
        endpoint records (st : client_state World) r seconds w :
  requests_post (world st) (url_of endpoint) (JList records) 15%float
  = (r, seconds, w) ->
  let st1 := after_first st endpoint records r seconds w in
  let run := try_batch endpoint records st in
  (forall e,
      r = Raise e ->
      snd (fst run) = 0%float /\ snd run = st1) /\
  (forall resp,
      r = Ok resp ->
      status_code resp = 200%Z ->
      snd (fst run) = (0 + seconds)%float /\ snd run = st1) /\
  (forall resp,
      r = Ok resp ->
      status_code resp <> 200%Z ->
      ~ (status_code resp = 422%Z /\ has_signature py_str resp) ->
      snd (fst run) = (0 + seconds)%float /\ snd run = st1) /\
  (forall resp,
      r = Ok resp ->
      status_code resp = 422%Z ->
      has_signature py_str resp ->
      snd (fst run)
      = add_seconds (0 + seconds)%float
                    (flat_map measured (posted w endpoint records)) /\
      snd run
      = ClientState (world_after w endpoint records)
          (trips st
           ++ RoundTrip (url_of endpoint) (JList records) r seconds
           :: posted w endpoint records)) /\
  (forall url rec e t,
      measured (RoundTrip url rec (Raise e) t) = []) /\
  (forall url rec single_resp t,
      measured (RoundTrip url rec (Ok single_resp) t) = [t]).
Proof.
  intros H st1 run. subst run. repeat apply conj.
  - intros e ->. now rewrite (try_batch_raised _ _ _ _ _ _ H).
  - intros resp -> H200.
    now rewrite (try_batch_accepted _ _ _ _ _ _ H H200).
  - intros resp -> H200 Hno.
    rewrite (try_batch_refused _ _ _ _ _ _ H H200); [now split|].
    destruct ((status_code resp =? 422)%Z && should_fallback py_str resp)
      eqn:E; [|reflexivity].
    exfalso. apply Hno. apply andb_true_iff in E. destruct E as [E1 E2].
    split; [apply Z.eqb_eq, E1|apply should_fallback_iff, E2].
  - intros resp -> H422 Hsig. apply should_fallback_iff in Hsig.
    now rewrite (try_batch_fallback_posts _ _ _ _ _ _ H H422 Hsig).
  - reflexivity.
  - reflexivity.
Qed.

(** C9, as the code has it.  An empty sequence is sent like any other: one
    round trip, whose payload is the empty list.  The answer is handed
    through (decoded body on 200, error payload otherwise) unless it is a
    422 carrying the object-expected signature: then the loop runs over no
    record and the call returns success with an empty list. *)
Theorem empty_batch_is_not_special
        endpoint (st : client_state World) r seconds w :
  requests_post (world st) (url_of endpoint) (JList []) 15%float
  = (r, seconds, w) ->
  try_batch endpoint [] st
  = (match r with
     | Ok resp =>
         if negb (status_code resp =? 200)%Z
            && ((status_code resp =? 422)%Z && should_fallback py_str resp)
         then (true, JList [], (0 + seconds)%float)
         else pass_through r seconds
     | Raise _ => pass_through r seconds
     end,
     ClientState w
       (trips st ++ [RoundTrip (url_of endpoint) (JList []) r seconds])).
Proof.
  intros H. destruct r as [resp|e].
  - destruct (Z.eq_dec (status_code resp) 200) as [H200|H200].
    + rewrite (try_batch_accepted _ _ _ _ _ _ H H200).
      unfold pass_through. rewrite H200. reflexivity.
    + destruct ((status_code resp =? 422)%Z && should_fallback py_str resp)
        eqn:E.
      * apply andb_true_iff in E. destruct E as [E1 E2].
        apply Z.eqb_eq in E1.
        rewrite (try_batch_loop _ _ _ _ _ _ H E1 E2).
        apply Z.eqb_neq in H200. rewrite H200. reflexivity.
      * rewrite (try_batch_refused _ _ _ _ _ _ H H200 E).
        unfold pass_through. apply Z.eqb_neq in H200. rewrite H200.
        reflexivity.
  - rewrite (try_batch_raised _ _ _ _ _ _ H). reflexivity.
Qed.

End Negotiation.

(* ===================================================================== *)
(** ** try_batch_with_fallback on concrete networks                       *)
(* ===================================================================== *)

Lemma rejects_list_has_signature (payload : json) :
  has_signature Fixtures.str_of_text (Fixtures.rejects_list payload).
Proof. apply should_fallback_iff. reflexivity. Qed.

Lemma fallback_issues_one_call_per_record_witness :
  try_batch_with_fallback Fixtures.scripted_post Fixtures.str_of_text
    "/predict" Fixtures.batch (Fixtures.start Fixtures.three_items)
  = ((true,
      JList [JDict [("prediction", JInt 0); ("class_name", JStr "class_0")];
             JDict [("error", JStr "Request failed: Read timed out.");
                    ("input", Fixtures.rec2)];
             JDict [("error",
                     JDict [("detail", JStr "Wine model not found. Please run train.py first to create the model.")]);
                    ("status", JInt 500)]],
      0.875%float),
     ClientState []
       [RoundTrip (url_of "/predict") (JList Fixtures.batch)
          (Ok (Fixtures.rejects_list (JList Fixtures.batch))) 0.25%float;
        RoundTrip (url_of "/predict") Fixtures.rec1
          (Ok (Fixtures.predicted 0 "class_0")) 0.5%float;
        RoundTrip (url_of "/predict") Fixtures.rec2
          (Raise Fixtures.timed_out) 15%float;
        RoundTrip (url_of "/predict") Fixtures.rec3
          (Ok Fixtures.not_found_500) 0.125%float]).
Proof.
  rewrite (proj1 (fallback_issues_one_call_per_record
                    Fixtures.script Fixtures.scripted_post
                    Fixtures.str_of_text "/predict" Fixtures.batch
                    (Fixtures.start Fixtures.three_items)
                    (Fixtures.rejects_list (JList Fixtures.batch))
                    0.25%float (tl Fixtures.three_items)
                    eq_refl eq_refl (rejects_list_has_signature _))).
  vm_compute. reflexivity.
Defined.



Lemma elapsed_total_sums_measured_trips_witness :
  snd (fst (try_batch_with_fallback Fixtures.scripted_post
              Fixtures.str_of_text "/predict" Fixtures.batch
              (Fixtures.start Fixtures.two_timeouts)))
  = 0.75%float /\
  snd (fst (try_batch_with_fallback Fixtures.scripted_post
              Fixtures.str_of_text "/predict" Fixtures.batch
              (Fixtures.start Fixtures.unreachable)))
  = 0%float.
Proof.
  split.
  - destruct (elapsed_total_sums_measured_trips
                Fixtures.script Fixtures.scripted_post Fixtures.str_of_text
                "/predict" Fixtures.batch
                (Fixtures.start Fixtures.two_timeouts)
                (Ok (Fixtures.rejects_list (JList Fixtures.batch)))
                0.25%float (tl Fixtures.two_timeouts) eq_refl)
      as (_ & _ & _ & Hfallback & _).
    rewrite (proj1 (Hfallback _ eq_refl eq_refl
                              (rejects_list_has_signature _))).
    vm_compute. reflexivity.
  - destruct (elapsed_total_sums_measured_trips
                Fixtures.script Fixtures.scripted_post Fixtures.str_of_text
                "/predict" Fixtures.batch
                (Fixtures.start Fixtures.unreachable)
                (Raise Fixtures.timed_out) 15%float [] eq_refl)
      as (Hraised & _).
    exact (proj1 (Hraised _ eq_refl)).
Defined.

(** C4, as stated, fails: a batch of three in which the second per-item
    call times out after fifteen seconds.  The four round trips took
    15.875 seconds together; the call reports 0.875. *)
Lemma elapsed_total_omits_failed_trips :
  let run :=
    try_batch_with_fallback Fixtures.scripted_post Fixtures.str_of_text
      "/predict" Fixtures.batch (Fixtures.start Fixtures.three_items) in
  List.length (trips (snd run)) = 4%nat /\
  sum_seconds (map rt_seconds (trips (snd run))) = 15.875%float /\
  snd (fst run) = 0.875%float /\
  snd (fst run) <> sum_seconds (map rt_seconds (trips (snd run))).
Proof.
  repeat apply conj; try (vm_compute; reflexivity).
  intros H. apply (f_equal (fun x => PrimFloat.ltb x 1)) in H.
  vm_compute in H. discriminate H.
Qed.

Lemma empty_batch_is_not_special_witness :
  try_batch_with_fallback Fixtures.scripted_post Fixtures.str_of_text
    "/predict" [] (Fixtures.start Fixtures.unreachable)
  = ((false, JStr "Request failed: Read timed out.", 0%float),
     ClientState []
       [RoundTrip (url_of "/predict") (JList []) (Raise Fixtures.timed_out)
          15%float]).
Proof.
  exact (empty_batch_is_not_special
           Fixtures.script Fixtures.scripted_post Fixtures.str_of_text
           "/predict" (Fixtures.start Fixtures.unreachable)
           (Raise Fixtures.timed_out) 15%float [] eq_refl).
Defined.

(** C9, as stated, fails: the endpoint answers the empty list with its 422
    object-expected payload; the call returns success with an empty list,
    not that payload. *)
Lemma empty_batch_answer_is_replaced :
  let answer := Fixtures.rejects_list (JList []) in
  let run :=
    try_batch_with_fallback Fixtures.scripted_post Fixtures.str_of_text
      "/predict" [] (Fixtures.start Fixtures.refuses_empty) in
  List.length (trips (snd run)) = 1%nat /\
  fst run = (true, JList [], (0 + 0.25)%float) /\
  pass_through (Ok answer) 0.25%float
  = (false, Fixtures.object_expected (JList []), (0 + 0.25)%float) /\
  fst run <> pass_through (Ok answer) 0.25%float.
Proof.
  repeat apply conj; try reflexivity.
  intros H. vm_compute in H. discriminate H.
Qed.

(* ===================================================================== *)
(** ** The inference service                                              *)
(* ===================================================================== *)

Lemma py_index_range {A : Type} (seq : list A) (i : Z) (a : A) :
  py_index seq i = Some a ->
  (- Z.of_nat (List.length seq) <= i < Z.of_nat (List.length seq))%Z /\
  ((0 <= i)%Z -> nth_error seq (Z.to_nat i) = Some a) /\
  ((i < 0)%Z ->
   nth_error seq (Z.to_nat (Z.of_nat (List.length seq) + i)) = Some a).
Proof.
  unfold py_index.
  destruct ((0 <=? i)%Z && (i <? Z.of_nat (List.length seq))%Z) eqn:E1.
  - apply andb_true_iff in E1. destruct E1 as [E1 E2].
    apply Z.leb_le in E1. apply Z.ltb_lt in E2.
    intros H. repeat apply conj; try lia. intros _. exact H.
  - destruct ((- Z.of_nat (List.length seq) <=? i)%Z && (i <? 0)%Z) eqn:E2;
      [|discriminate].
    apply andb_true_iff in E2. destruct E2 as [E2 E3].
    apply Z.leb_le in E2. apply Z.ltb_lt in E3.
    intros H. repeat apply conj; try lia. intros _. exact H.
Qed.

Lemma index_or_raise_ok {A : Type} (seq : list A) (i : Z) (a : A) :
  index_or_raise seq i = Ok a -> py_index seq i = Some a.
Proof.
  unfold index_or_raise. destruct (py_index seq i); [|discriminate].
  intros H. now inversion H.
Qed.

(** Takes apart a block of [<-?] steps that is known to have succeeded. *)
Ltac ok_steps H :=
  repeat match type of H with
         | result_bind ?c _ = Ok _ =>
             let E := fresh "E" in
             destruct c eqn:E; cbn [result_bind] in H; [|discriminate H]
         end.

Lemma flat_map_nil_inv {A B : Type} (f : A -> list B) (l : list A) :
  flat_map f l = [] -> forall x, In x l -> f x = [].
Proof.
  intros H x Hx. destruct (f x) as [|y ys] eqn:E; [reflexivity|].
  assert (Hy : In y (flat_map f l)).
  { apply in_flat_map. exists x. split; [exact Hx|]. rewrite E. now left. }
  rewrite H in Hy. contradiction Hy.
Qed.

Lemma flat_map_nil_intro {A B : Type} (f : A -> list B) (l : list A) :
  (forall x, In x l -> f x = []) -> flat_map f l = [].
Proof.
  induction l as [|a l IH]; intros H; [reflexivity|]. cbn.
  rewrite (H a (or_introl eq_refl)), IH; [reflexivity|].
  intros x Hx. apply H. now right.
Qed.

Section Service.

Variable path_exists : string -> bool.
Variable joblib_load : string -> result estimator.
Variable target_names : list string.
Variable float_field : json -> string * string + float.

Local Notation predict_data' := (predict_data path_exists joblib_load).
Local Notation predict_with_prob' :=
  (predict_with_prob path_exists joblib_load target_names).
Local Notation predict_wine' :=
  (predict_wine path_exists joblib_load target_names).
Local Notation predict_wine_with_probability' :=
  (predict_wine_with_probability path_exists joblib_load target_names).
Local Notation post_predict' :=
  (post_predict path_exists joblib_load target_names float_field).
Local Notation post_predict_with_probability' :=
  (post_predict_with_probability path_exists joblib_load target_names
                                 float_field).

Lemma predict_wine_200 wine_features :
  http_status (predict_wine' wine_features) = 200%Z ->
  exists label class_name,
    predict_wine' wine_features
    = Http 200 (JDict [("prediction", JInt label);
                       ("class_name", JStr class_name)]) /\
    py_index target_names label = Some class_name.
Proof.
  unfold predict_wine.
  destruct (result_bind _ _) as [b|e] eqn:H; [|discriminate].
  intros _. ok_steps H. inversion H; subst b.
  eexists _, _. split; [reflexivity|].
  eapply index_or_raise_ok; eassumption.
Qed.

Lemma predict_with_prob_ok X b :
  predict_with_prob' X = Ok b ->
  exists label class_name probabilities,
    b = JDict [("prediction", JInt label);
               ("class_name", JStr class_name);
               ("probabilities", JDict probabilities)] /\
    py_index target_names label = Some class_name.
Proof.
  unfold predict_with_prob. destruct (model_path path_exists); [|discriminate].
  intros H. ok_steps H. inversion H; subst b.
  eexists _, _, _. split; [reflexivity|].
  eapply index_or_raise_ok; eassumption.
Qed.

Lemma route_200 handler body :
  http_status (route float_field handler body) = 200%Z ->
  exists wine_features,
    decode_WineData float_field body = inr wine_features /\
    route float_field handler body = handler wine_features.
Proof.
  unfold route. destruct (decode_WineData float_field body) as [entries|wf].
  - discriminate.
  - intros _. exists wf. split; reflexivity.
Qed.

Lemma decode_fails_on_entry body fields name :
  body = JDict fields ->
  In name WineData_fields ->
  field_entry float_field body fields name <> [] ->
  exists entries, decode_WineData float_field body = inl entries.
Proof.
  intros -> Hin Hne. unfold decode_WineData.
  destruct (flat_map _ WineData_fields) as [|entry entries] eqn:E.
  - exfalso.
    destruct (field_entry float_field (JDict fields) fields name)
      as [|x xs] eqn:Ex; [now apply Hne|].
    assert (Hx : In x (flat_map (field_entry float_field (JDict fields) fields)
                                WineData_fields)).
    { apply in_flat_map. exists name. split; [exact Hin|].
      rewrite Ex. now left. }
    rewrite E in Hx. exact Hx.
  - eexists. reflexivity.
Qed.

Lemma route_refuses handler body entries :
  decode_WineData float_field body = inl entries ->
  route float_field handler body = Http 422 (JDict [("detail", JList entries)]).
Proof. intros H. unfold route. rewrite H. reflexivity. Qed.

Lemma route_accepts handler body wine_features :
  decode_WineData float_field body = inr wine_features ->
  route float_field handler body = handler wine_features.
Proof. intros H. unfold route. rewrite H. reflexivity. Qed.

Lemma field_entry_nil_iff body fields name :
  field_entry float_field body fields name = [] <->
  exists x, field_accepted float_field fields name x.
Proof.
  unfold field_entry, field_accepted. split.
  - destruct (dict_get fields name) as [v|]; [|discriminate].
    destruct (float_field v) as [[ty msg]|x] eqn:E; [discriminate|].
    intros _. exists x, v. split; [reflexivity|exact E].
  - intros (x & v & -> & ->). reflexivity.
Qed.

(** Decoding looks at the declared fields only. *)
Lemma decode_declared_only fields fields' wine_features :
  (forall name, In name WineData_fields ->
                dict_get fields' name = dict_get fields name) ->
  decode_WineData float_field (JDict fields) = inr wine_features ->
  decode_WineData float_field (JDict fields') = inr wine_features.
Proof.
  intros Hsame H. unfold decode_WineData in *.
  destruct (flat_map (field_entry float_field (JDict fields) fields)
                     WineData_fields) eqn:E; [|discriminate H].
  rewrite flat_map_nil_intro.
  - rewrite <- H. f_equal. unfold field_value.
    repeat rewrite Hsame by (cbn; tauto). reflexivity.
  - intros name Hin. apply field_entry_nil_iff.
    pose proof (flat_map_nil_inv _ _ E name Hin) as Hnil.
    apply field_entry_nil_iff in Hnil. destruct Hnil as (x & v & Hv & Hx).
    exists x, v. split; [|exact Hx]. now rewrite (Hsame name Hin).
Qed.

(** C5, as the code has it.  A body that does not decode into [WineData]
    (not an object, a declared field absent, a declared field refused by
    the float validator) is answered 422 with the validation entries.  For
    a body that decodes, a model file found at none of the known paths is
    answered 500 with the fixed "Wine model not found" text as detail; an
    exception raised while loading the model or scoring is answered 500
    with that exception's text as detail.  Keys that [WineData] does not
    declare play no part: two objects that agree on the thirteen declared
    fields decode alike and get the same answer. *)
Theorem predict_failure_outcomes :
  (forall body,
      is_dict body = false \/
      (exists fields name,
          body = JDict fields /\ In name WineData_fields /\
          (dict_get fields name = None \/
           exists v ty msg,
             dict_get fields name = Some v /\ float_field v = inl (ty, msg))) ->
      exists entries,
        entries <> [] /\
        post_predict' body = Http 422 (JDict [("detail", JList entries)])) /\
  (forall body wine_features,
      decode_WineData float_field body = inr wine_features ->
      model_path path_exists = None ->
      post_predict' body
      = Http 500 (JDict [("detail", JStr "Wine model not found. Please run train.py first to create the model.")])) /\
  (forall body wine_features path e,
      decode_WineData float_field body = inr wine_features ->
      model_path path_exists = Some path ->
      joblib_load path = Raise e \/
      (exists model,
          joblib_load path = Ok model /\
          predict model (features_of wine_features) = Raise e) ->
      post_predict' body = Http 500 (JDict [("detail", JStr (exn_text e))])) /\
  (forall fields fields' wine_features,
      (forall name, In name WineData_fields ->
                    dict_get fields' name = dict_get fields name) ->
      decode_WineData float_field (JDict fields) = inr wine_features ->
      decode_WineData float_field (JDict fields') = inr wine_features /\
      post_predict' (JDict fields') = post_predict' (JDict fields)).
Proof.
  repeat apply conj.
  - intros body Hbad.
    assert (Hdec : exists entries,
               decode_WineData float_field body = inl entries).
    { destruct Hbad as [Hnd|(fields & name & -> & Hin & Hfield)].
      - destruct body; try (eexists; reflexivity). discriminate Hnd.
      - apply (decode_fails_on_entry _ fields name eq_refl Hin).
        unfold field_entry.
        destruct Hfield as [->|(v & ty & msg & -> & ->)]; discriminate. }
    destruct Hdec as [entries Hdec]. exists entries. split.
    + intros ->. unfold decode_WineData in Hdec.
      destruct body; try discriminate Hdec.
      destruct (flat_map _ WineData_fields); discriminate Hdec.
    + apply route_refuses, Hdec.
  - intros body wf Hdec Hnone. unfold post_predict.
    rewrite (route_accepts _ _ _ Hdec).
    unfold predict_wine, predict_data. rewrite Hnone. reflexivity.
  - intros body wf path e Hdec Hpath Hraise. unfold post_predict.
    rewrite (route_accepts _ _ _ Hdec).
    unfold predict_wine, predict_data. rewrite Hpath.
    destruct Hraise as [->|(model & -> & Hp)]; cbn [result_bind].
    + reflexivity.
    + rewrite Hp. reflexivity.
  - intros fields fields' wf Hsame Hdec.
    pose proof (decode_declared_only _ _ _ Hsame Hdec) as Hdec'.
    split; [exact Hdec'|]. unfold post_predict.
    now rewrite (route_accepts _ _ _ Hdec), (route_accepts _ _ _ Hdec').
Qed.

(** C6.  A request body that is a list is answered 422 by both routes; the
    detail holds one entry, of type [model_attributes_type], whose msg says
    that a dictionary or object was expected and whose input is the list
    received.  The client's scan of such a response decides to fall back. *)
Theorem list_body_gets_object_expected_entry
        (py_str : json -> string) (items : list json) (body_text : string) :
  (forall s, py_str (JStr s) = s) ->
  forall r,
    r = post_predict' (JList items) \/
    r = post_predict_with_probability' (JList items) ->
    http_status r = 422%Z /\
    (exists fields,
        http_body r = JDict [("detail", JList [JDict fields])] /\
        dict_get fields "msg" = Some (JStr msg_model_attributes_type) /\
        dict_get fields "input" = Some (JList items)) /\
    occurs_in "dictionary or object" msg_model_attributes_type /\
    has_signature py_str
      (Response (http_status r) (Some (http_body r)) body_text) /\
    should_fallback py_str
      (Response (http_status r) (Some (http_body r)) body_text) = true.
Proof.
  intros Hstr r Hr.
  assert (Hsub : str_contains "dictionary or object" msg_model_attributes_type
                 = true) by reflexivity.
  assert (Hshape : r = Http 422
                         (JDict [("detail",
                            JList [JDict [("type", JStr "model_attributes_type");
                                          ("loc", JList [JStr "body"]);
                                          ("msg", JStr msg_model_attributes_type);
                                          ("input", JList items)]])])).
  { destruct Hr as [->| ->]; reflexivity. }
  assert (Hscan : should_fallback py_str
                    (Response (http_status r) (Some (http_body r)) body_text)
                  = true).
  { rewrite Hshape. cbn. rewrite Hstr. rewrite Hsub. reflexivity. }
  repeat apply conj.
  - rewrite Hshape. reflexivity.
  - rewrite Hshape. eexists. repeat apply conj; reflexivity.
  - apply str_contains_sound, Hsub.
  - apply should_fallback_iff, Hscan.
  - exact Hscan.
Qed.

(** C8, as the code has it.  In every 200 response of either route,
    [class_name] is [target_names[prediction]] under Python's indexing, so
    [prediction] lies in [-N, N); when it is not negative it is a position
    in [0, N) and [class_name] is the label at that position; a negative
    one selects the label counted from the end of the list. *)
Theorem served_class_name_is_indexed body r :
  r = post_predict' body \/ r = post_predict_with_probability' body ->
  http_status r = 200%Z ->
  exists label class_name,
    response_prediction r = Some label /\
    response_class_name r = Some class_name /\
    py_index target_names label = Some class_name /\
    (- Z.of_nat (List.length target_names) <= label
     < Z.of_nat (List.length target_names))%Z /\
    ((0 <= label)%Z ->
     (0 <= label < Z.of_nat (List.length target_names))%Z /\
     nth_error target_names (Z.to_nat label) = Some class_name) /\
    ((label < 0)%Z ->
     nth_error target_names
               (Z.to_nat (Z.of_nat (List.length target_names) + label))
     = Some class_name).
Proof.
  intros Hr H200.
  assert (Hshape : exists label class_name rest,
             http_body r = JDict (("prediction", JInt label)
                                  :: ("class_name", JStr class_name) :: rest) /\
             py_index target_names label = Some class_name).
  { destruct Hr as [-> | ->].
    - unfold post_predict in *.
      destruct (route_200 _ _ H200) as (wf & _ & Hroute).
      rewrite Hroute in *.
      destruct (predict_wine_200 _ H200)
        as (label & class_name & Heq & Hidx).
      rewrite Heq. exists label, class_name, []. split; [reflexivity|exact Hidx].
    - unfold post_predict_with_probability in *.
      destruct (route_200 _ _ H200) as (wf & _ & Hroute).
      rewrite Hroute in *. unfold predict_wine_with_probability in *.
      destruct (predict_with_prob' (features_of wf)) as [b|e] eqn:E;
        [|discriminate H200].
      destruct (predict_with_prob_ok _ _ E)
        as (label & class_name & probs & -> & Hidx).
      exists label, class_name, [("probabilities", JDict probs)].
      split; [reflexivity|exact Hidx]. }
  destruct Hshape as (label & class_name & rest & Hbody & Hidx).
  destruct (py_index_range _ _ _ Hidx) as (Hrange & Hpos & Hneg).
  exists label, class_name. unfold response_prediction, response_class_name.
  rewrite Hbody. repeat apply conj; try reflexivity; try assumption; try lia.
  - intros H0. split; [lia|exact (Hpos H0)].
Qed.

End Service.

(* ===================================================================== *)
(** ** The inference service on concrete inputs                           *)
(* ===================================================================== *)

Lemma predict_failure_outcomes_witness :
  (exists entries,
      entries <> [] /\
      post_predict Fixtures.trained
        (Fixtures.loads (Fixtures.constant_estimator 1 [0; 1; 0]%float))
        Fixtures.class_labels Fixtures.number_field Fixtures.rec1
      = Http 422 (JDict [("detail", JList entries)])) /\
  post_predict Fixtures.no_file
    (Fixtures.loads (Fixtures.constant_estimator 1 [0; 1; 0]%float))
    Fixtures.class_labels Fixtures.number_field Fixtures.sample_record
  = Http 500 (JDict [("detail", JStr "Wine model not found. Please run train.py first to create the model.")]) /\
  post_predict Fixtures.trained
    (Fixtures.load_fails (Exn "EOFError" "Ran out of input"))
    Fixtures.class_labels Fixtures.number_field Fixtures.sample_record
  = Http 500 (JDict [("detail", JStr "Ran out of input")]) /\
  post_predict Fixtures.trained
    (Fixtures.loads (Fixtures.constant_estimator 1 [0; 1; 0]%float))
    Fixtures.class_labels Fixtures.number_field Fixtures.labelled_record
  = post_predict Fixtures.trained
      (Fixtures.loads (Fixtures.constant_estimator 1 [0; 1; 0]%float))
      Fixtures.class_labels Fixtures.number_field Fixtures.sample_record.
Proof.
  repeat apply conj.
  - destruct (predict_failure_outcomes Fixtures.trained
                (Fixtures.loads
                   (Fixtures.constant_estimator 1 [0; 1; 0]%float))
                Fixtures.class_labels Fixtures.number_field)
      as (Hrefused & _).
    apply Hrefused.
    right. exists [("alcohol", JFloat 13)], "proline".
    repeat apply conj; [reflexivity|simpl; tauto|left; reflexivity].
  - destruct (predict_failure_outcomes Fixtures.no_file
                (Fixtures.loads
                   (Fixtures.constant_estimator 1 [0; 1; 0]%float))
                Fixtures.class_labels Fixtures.number_field)
      as (_ & Hmissing & _).
    eapply Hmissing; reflexivity.
  - destruct (predict_failure_outcomes Fixtures.trained
                (Fixtures.load_fails (Exn "EOFError" "Ran out of input"))
                Fixtures.class_labels Fixtures.number_field)
      as (_ & _ & Hraised & _).
    eapply (Hraised Fixtures.sample_record _ "../model/wine_model.pkl"
                    (Exn "EOFError" "Ran out of input"));
      [reflexivity|reflexivity|left; reflexivity].
  - destruct (predict_failure_outcomes Fixtures.trained
                (Fixtures.loads
                   (Fixtures.constant_estimator 1 [0; 1; 0]%float))
                Fixtures.class_labels Fixtures.number_field)
      as (_ & _ & _ & Hextra).
    edestruct (Hextra
                 (match Fixtures.sample_record with
                  | JDict fields => fields
                  | _ => []
                  end)
                 (match Fixtures.labelled_record with
                  | JDict fields => fields
                  | _ => []
                  end)) as [_ Heq]; [|reflexivity|exact Heq].
    intros name Hin. cbn in Hin.
    repeat (destruct Hin as [<-|Hin]; [reflexivity|]).
    contradiction Hin.
Defined.

(** C5, as stated, fails twice.  A record that holds the thirteen fields
    and a fourteenth key is not refused: it is scored like the record
    without the key.  And a service without a model file and a service
    whose model file is there but whose loading raises an exception with
    the same text send the same response for the same record; the class of
    the exception is not in the response. *)
Lemma extra_key_served_and_failures_coincide :
  let e := Exn "RuntimeError" "Wine model not found. Please run train.py first to create the model." in
  (exists fields,
      Fixtures.labelled_record = JDict fields /\
      List.length fields = 14%nat /\
      dict_get fields "vintage" = Some (JInt 2019) /\
      ~ In "vintage" WineData_fields) /\
  post_predict Fixtures.trained
    (Fixtures.loads (Fixtures.constant_estimator 1 [0; 1; 0]%float))
    Fixtures.class_labels Fixtures.number_field Fixtures.labelled_record
  = Http 200 (JDict [("prediction", JInt 1); ("class_name", JStr "class_1")]) /\
  model_path Fixtures.no_file = None /\
  model_path Fixtures.trained = Some "../model/wine_model.pkl" /\
  e <> model_not_found /\
  post_predict Fixtures.no_file
    (Fixtures.loads (Fixtures.constant_estimator 1 [0; 1; 0]%float))
    Fixtures.class_labels Fixtures.number_field Fixtures.sample_record
  = post_predict Fixtures.trained (Fixtures.load_fails e)
      Fixtures.class_labels Fixtures.number_field Fixtures.sample_record.
Proof.
  repeat apply conj; try reflexivity.
  - eexists. repeat apply conj; try reflexivity.
    cbn. intuition discriminate.
  - discriminate.
Qed.

Lemma list_body_gets_object_expected_entry_witness :
  should_fallback Fixtures.str_of_text
    (Response 422
       (Some (http_body
                (post_predict_with_probability Fixtures.trained
                   (Fixtures.loads
                      (Fixtures.constant_estimator 1 [0; 1; 0]%float))
                   Fixtures.class_labels Fixtures.number_field
                   (JList Fixtures.batch))))
       "(json)")
  = true.
Proof.
  refine (proj2 (proj2 (proj2 (proj2
    (list_body_gets_object_expected_entry Fixtures.trained
       (Fixtures.loads (Fixtures.constant_estimator 1 [0; 1; 0]%float))
       Fixtures.class_labels Fixtures.number_field Fixtures.str_of_text
       Fixtures.batch "(json)" _ _ (or_intror eq_refl)))))).
  intros s. reflexivity.
Defined.

Lemma served_class_name_is_indexed_witness :
  exists label class_name,
    response_prediction
      (post_predict_with_probability Fixtures.trained
         (Fixtures.loads (Fixtures.constant_estimator 1 [0; 1; 0]%float))
         Fixtures.class_labels Fixtures.number_field Fixtures.sample_record)
    = Some label /\
    py_index Fixtures.class_labels label = Some class_name /\
    (label, class_name) = (1%Z, "class_1").
Proof.
  destruct (served_class_name_is_indexed Fixtures.trained
              (Fixtures.loads (Fixtures.constant_estimator 1 [0; 1; 0]%float))
              Fixtures.class_labels Fixtures.number_field
              Fixtures.sample_record _ (or_intror eq_refl) eq_refl)
    as (label & class_name & Hlabel & Hname & Hidx & _).
  exists label, class_name. repeat apply conj; try assumption.
  vm_compute in Hlabel, Hname. inversion Hlabel. inversion Hname. reflexivity.
Defined.

(** C8, as stated, fails: an estimator whose label for the record is -1.
    The response is a 200 with [prediction = -1], which is no position in
    the list of three labels, and [class_name] is the last label. *)
Lemma negative_label_is_served :
  let r :=
    post_predict Fixtures.trained
      (Fixtures.loads (Fixtures.constant_estimator (-1) [0; 0; 1]%float))
      Fixtures.class_labels Fixtures.number_field Fixtures.sample_record in
  r = Http 200 (JDict [("prediction", JInt (-1));
                       ("class_name", JStr "class_2")]) /\
  http_status r = 200%Z /\
  response_prediction r = Some (-1)%Z /\
  response_class_name r = Some "class_2" /\
  ~ (0 <= -1 < Z.of_nat (List.length Fixtures.class_labels))%Z.
Proof.
  repeat apply conj; try reflexivity. cbn. lia.
Qed.

(* ===================================================================== *)
(** ** More on normalize_uploaded_json and the payload of the page        *)
(* ===================================================================== *)

Lemma normalize_total (x : json) :
  is_dict x || is_list x = true ->
  exists y, normalize_uploaded_json x = Ok y.
Proof.
  intros Hx. destruct x; try discriminate Hx.
  - eexists. reflexivity.
  - unfold normalize_uploaded_json.
    destruct (_ && _); [|destruct (_ && _)]; eexists; reflexivity.
Qed.

Lemma normalize_shape (x y : json) :
  normalize_uploaded_json x = Ok y -> is_dict y || is_list y = true.
Proof.
  intros H. destruct x; try discriminate H.
  - inversion H. reflexivity.
  - unfold normalize_uploaded_json, dict_has, dict_get_default in H.
    destruct (dict_get fields "input_batch") as [[]|];
      destruct (dict_get fields "input") as [[]|];
      inversion H; reflexivity.
Qed.

Lemma normalize_list_inv (x : json) (records : list json) :
  normalize_uploaded_json x = Ok (JList records) ->
  x = JList records \/
  exists d, x = JDict d /\ dict_get d "input_batch" = Some (JList records).
Proof.
  intros H. destruct x; try discriminate H.
  - left. now inversion H.
  - right. exists fields. split; [reflexivity|].
    unfold normalize_uploaded_json, dict_has, dict_get_default in H.
    destruct (dict_get fields "input_batch") as [[]|];
      destruct (dict_get fields "input") as [[]|];
      inversion H; reflexivity.
Qed.

(** X1.  [normalize_uploaded_json] succeeds on every dict and every list,
    and what it returns is again a dict or a list, never a scalar: the
    callers' [isinstance(normalized, list)] test decides between two
    shapes only. *)
Theorem normalize_returns_dict_or_list :
  (forall x,
      is_dict x || is_list x = true ->
      exists y, normalize_uploaded_json x = Ok y) /\
  (forall x y,
      normalize_uploaded_json x = Ok y -> is_dict y || is_list y = true).
Proof.
  split.
  - intros x Hx. apply normalize_total, Hx.
  - intros x y H. apply (normalize_shape x), H.
Qed.

Lemma normalize_uploaded_json_returns_dict_or_list_witness :
  (exists y,
      normalize_uploaded_json (JDict [("input", Fixtures.rec1)]) = Ok y) /\
  is_dict Fixtures.rec1 || is_list Fixtures.rec1 = true.
Proof.
  destruct normalize_returns_dict_or_list as (Htotal & Hshape).
  split.
  - apply Htotal. reflexivity.
  - apply (Hshape (JDict [("input", Fixtures.rec1)])). reflexivity.
Defined.

(** X2.  The result is a list in exactly two cases: the upload is that very
    list, or it is a dict whose ["input_batch"] is that very list.  The
    records are handed on as uploaded: none is dropped, reordered or
    looked into. *)
Theorem normalize_returns_list_iff (x : json) (records : list json) :
  normalize_uploaded_json x = Ok (JList records) <->
  x = JList records \/
  exists d, x = JDict d /\ dict_get d "input_batch" = Some (JList records).
Proof.
  split.
  - apply normalize_list_inv.
  - intros [->|(d & -> & Hd)].
    + reflexivity.
    + apply normalize_dict_batch, Hd.
Qed.

(** X3.  The input preview of lines 221-228 raises (an uncaught
    [IndexError], before any button is looked at) exactly when the page is
    in an upload mode and the stored upload is a dict whose
    ["input_batch"] is the empty list.  A bare empty list is no input at
    all, and the manual form never raises. *)
Theorem input_preview_raises_iff
        (mode : input_mode) (number_input : string -> float)
        (uploaded : option json) :
  (exists e,
      input_preview (prepare_payload mode (manual_inputs number_input) uploaded)
      = Raise e) <->
  mode <> Manual_single /\
  exists d, uploaded = Some (JDict d) /\
            dict_get d "input_batch" = Some (JList []).
Proof.
  assert (Hupload :
    (exists e,
        input_preview
          (match uploaded with
           | Some uploaded_json =>
               if truthy uploaded_json then
                 match normalize_uploaded_json uploaded_json with
                 | Ok normalized => Some normalized
                 | Raise _ => None
                 end
               else None
           | None => None
           end) = Raise e) <->
    exists d, uploaded = Some (JDict d) /\
              dict_get d "input_batch" = Some (JList [])).
  { split.
    - intros [e H]. destruct uploaded as [u|]; [|discriminate H].
      destruct (truthy u) eqn:Ht; [|discriminate H].
      destruct (normalize_uploaded_json u) as [y|e'] eqn:Hn;
        [|discriminate H].
      destruct y as [| | | | |items|fields]; try discriminate H.
      destruct items as [|first rest]; [|discriminate H].
      apply normalize_list_inv in Hn.
      destruct Hn as [->|(d & -> & Hd)]; [discriminate Ht|].
      exists d. split; [reflexivity|exact Hd].
    - intros (d & -> & Hd).
      assert (Ht : truthy (JDict d) = true).
      { destruct d; [discriminate Hd|reflexivity]. }
      rewrite Ht, (normalize_dict_batch _ _ Hd).
      eexists. reflexivity. }
  destruct mode; cbn [prepare_payload].
  - split.
    + intros [e H]. discriminate H.
    + intros [Hm _]. now contradiction Hm.
  - rewrite Hupload. split; [intros H; split; [discriminate|exact H]|].
    intros [_ H]; exact H.
  - rewrite Hupload. split; [intros H; split; [discriminate|exact H]|].
    intros [_ H]; exact H.
Qed.

(** X4.  In an upload mode the payload of the page is never a scalar, and
    it is absent exactly when nothing is stored, the upload is falsy
    ([null], [false], zero, an empty string, list or dict), or it is a
    scalar. *)
Theorem prepare_payload_upload
        (mode : input_mode) (manual : json) (uploaded : option json) :
  mode <> Manual_single ->
  (forall p,
      prepare_payload mode manual uploaded = Some p ->
      is_dict p || is_list p = true) /\
  (prepare_payload mode manual uploaded = None <->
   uploaded = None \/
   exists u, uploaded = Some u /\
             (truthy u = false \/ is_dict u || is_list u = false)).
Proof.
  intros Hmode.
  assert (Heq : prepare_payload mode manual uploaded
                = match uploaded with
                  | Some u =>
                      if truthy u then
                        match normalize_uploaded_json u with
                        | Ok normalized => Some normalized
                        | Raise _ => None
                        end
                      else None
                  | None => None
                  end).
  { destruct mode; [now contradiction Hmode|reflexivity|reflexivity]. }
  rewrite Heq. clear Heq.
  pose proof normalize_total as Htotal.
  pose proof normalize_shape as Hshape.
  split.
  - intros p H. destruct uploaded as [u|]; [|discriminate H].
    destruct (truthy u); [|discriminate H].
    destruct (normalize_uploaded_json u) as [y|e] eqn:Hn; [|discriminate H].
    inversion H; subst p. exact (Hshape _ _ Hn).
  - split.
    + intros H. destruct uploaded as [u|]; [|now left].
      right. exists u. split; [reflexivity|].
      destruct (truthy u); [|now left]. right.
      destruct (is_dict u || is_list u) eqn:Hu; [|reflexivity].
      destruct (Htotal _ Hu) as [y Hy]. rewrite Hy in H. discriminate H.
    + intros [->|(u & -> & [Ht|Hu])]; [reflexivity| |].
      * rewrite Ht. reflexivity.
      * destruct (truthy u); [|reflexivity].
        destruct (normalize_uploaded_json u) as [y|e] eqn:Hn; [|reflexivity].
        destruct u; try discriminate Hn; discriminate Hu.
Qed.

Lemma prepare_payload_upload_witness :
  prepare_payload JSON_upload_batch Fixtures.rec1 (Some (JList [])) = None.
Proof.
  destruct (prepare_payload_upload JSON_upload_batch Fixtures.rec1
              (Some (JList [])))
    as (_ & Hnone).
  - discriminate.
  - apply Hnone. right. exists (JList []). split; [reflexivity|].
    left. reflexivity.
Defined.

(* ===================================================================== *)
(** ** More on try_batch_with_fallback                                    *)
(* ===================================================================== *)

Section MoreNegotiation.

Variable World : Type.
Variable requests_post :
  World -> string -> json -> float -> result response * float * World.
Variable py_str : json -> string.

Lemma post_each_urls (w : World) url records :
  Forall (fun tr => rt_url tr = url)
         (fst (post_each requests_post w url records)).
Proof.
  revert w. induction records as [|rec rest IH]; intros w; [constructor|].
  cbn [post_each].
  destruct (requests_post w url rec 15%float) as [[r seconds] w1].
  specialize (IH w1).
  destruct (post_each requests_post w1 url rest) as [item_trips w'].
  constructor; [reflexivity|exact IH].
Qed.

(** X5.  Whatever the network does, a call asks it either once or N+1
    times, and N+1 times only when it reports success; a call that reports
    failure has asked once.  The first request carries the whole list to
    the endpoint asked for; the N others, when made, are the requests of
    [post_each]: one per record, in order, to the same endpoint, each in
    the world the request before left.  Earlier round trips stay in the
    log untouched. *)
Theorem try_batch_round_trips
        endpoint records (st : client_state World) r seconds w :
  requests_post (world st) (url_of endpoint) (JList records) 15%float
  = (r, seconds, w) ->
  let first := RoundTrip (url_of endpoint) (JList records) r seconds in
  let item_trips :=
    fst (post_each requests_post w (url_of endpoint) records) in
  let run := try_batch_with_fallback requests_post py_str endpoint records st in
  (snd run = ClientState w (trips st ++ [first]) \/
   fst (fst (fst run)) = true /\
   snd run
   = ClientState (snd (post_each requests_post w (url_of endpoint) records))
                 (trips st ++ first :: item_trips)) /\
  (fst (fst (fst run)) = false ->
   snd run = ClientState w (trips st ++ [first])) /\
  List.length item_trips = List.length records /\
  map rt_payload item_trips = records /\
  Forall (fun tr => rt_url tr = url_of endpoint) (first :: item_trips).
Proof.
  intros H first item_trips run. subst first item_trips run.
  assert (Hone : forall res : bool * json * float,
             try_batch_with_fallback requests_post py_str endpoint records st
             = (res, ClientState w
                       (trips st
                        ++ [RoundTrip (url_of endpoint) (JList records) r
                                      seconds])) ->
             (snd (try_batch_with_fallback requests_post py_str endpoint
                                           records st)
              = ClientState w
                  (trips st
                   ++ [RoundTrip (url_of endpoint) (JList records) r seconds])
              \/
              fst (fst (fst (try_batch_with_fallback requests_post py_str
                               endpoint records st))) = true /\
              snd (try_batch_with_fallback requests_post py_str endpoint
                                           records st)
              = ClientState
                  (snd (post_each requests_post w (url_of endpoint) records))
                  (trips st
                   ++ RoundTrip (url_of endpoint) (JList records) r seconds
                   :: fst (post_each requests_post w (url_of endpoint)
                                     records))) /\
             (fst (fst (fst (try_batch_with_fallback requests_post py_str
                               endpoint records st))) = false ->
              snd (try_batch_with_fallback requests_post py_str endpoint
                                           records st)
              = ClientState w
                  (trips st
                   ++ [RoundTrip (url_of endpoint) (JList records) r
                                 seconds]))).
  { intros res Hrun. rewrite Hrun. split; [left; reflexivity|].
    intros _. reflexivity. }
  split; [|split; [|repeat apply conj]].
  - destruct r as [resp|e].
    + destruct (Z.eq_dec (status_code resp) 200) as [H200|H200].
      * exact (proj1 (Hone _ (try_batch_accepted _ _ _ _ _ _ _ _ _ H H200))).
      * destruct ((status_code resp =? 422)%Z && should_fallback py_str resp)
          eqn:E.
        -- apply andb_true_iff in E. destruct E as [E1 E2].
           apply Z.eqb_eq in E1. right.
           rewrite (try_batch_fallback_posts _ _ _ _ _ _ _ _ _ H E1 E2).
           split; reflexivity.
        -- exact (proj1
                    (Hone _ (try_batch_refused _ _ _ _ _ _ _ _ _ H H200 E))).
    + exact (proj1 (Hone _ (try_batch_raised _ _ _ _ _ _ _ _ _ H))).
  - destruct r as [resp|e].
    + destruct (Z.eq_dec (status_code resp) 200) as [H200|H200].
      * exact (proj2 (Hone _ (try_batch_accepted _ _ _ _ _ _ _ _ _ H H200))).
      * destruct ((status_code resp =? 422)%Z && should_fallback py_str resp)
          eqn:E.
        -- apply andb_true_iff in E. destruct E as [E1 E2].
           apply Z.eqb_eq in E1.
           rewrite (try_batch_fallback_posts _ _ _ _ _ _ _ _ _ H E1 E2).
           discriminate.
        -- exact (proj2
                    (Hone _ (try_batch_refused _ _ _ _ _ _ _ _ _ H H200 E))).
    + exact (proj2 (Hone _ (try_batch_raised _ _ _ _ _ _ _ _ _ H))).
  - apply post_each_length.
  - apply post_each_payloads.
  - constructor; [reflexivity|apply post_each_urls].
Qed.

(** X6.  The call reports success exactly when the optimistic attempt is
    answered, and answered either 200 or 422 with the object-expected
    signature; no outcome of a per-record call can turn it into a
    failure. *)
Theorem try_batch_success_iff
        endpoint records (st : client_state World) r seconds w :
  requests_post (world st) (url_of endpoint) (JList records) 15%float
  = (r, seconds, w) ->
  fst (fst (fst (try_batch_with_fallback requests_post py_str endpoint
                                         records st))) = true <->
  exists resp,
    r = Ok resp /\
    (status_code resp = 200%Z \/
     status_code resp = 422%Z /\ has_signature py_str resp).
Proof.
  intros H. destruct r as [resp|e].
  - destruct (Z.eq_dec (status_code resp) 200) as [H200|H200].
    + rewrite (try_batch_accepted _ _ _ _ _ _ _ _ _ H H200). cbn.
      split; [|reflexivity]. intros _. exists resp. split; [reflexivity|].
      now left.
    + destruct ((status_code resp =? 422)%Z && should_fallback py_str resp)
        eqn:E.
      * apply andb_true_iff in E. destruct E as [E1 E2].
        apply Z.eqb_eq in E1. apply should_fallback_iff in E2.
        destruct (fallback_path _ _ _ _ _ _ _ _ _ H E1 E2)
          as (item_trips & w' & Hrun & _).
        rewrite Hrun. cbn. split; [|reflexivity].
        intros _. exists resp. split; [reflexivity|]. right. now split.
      * rewrite (try_batch_refused _ _ _ _ _ _ _ _ _ H H200 E). cbn.
        split; [discriminate|].
        intros (resp' & Hr & [Hs|[Hs Hsig]]); inversion Hr; subst resp'.
        -- now contradiction H200.
        -- apply should_fallback_iff in Hsig. apply Z.eqb_eq in Hs.
           rewrite Hs, Hsig in E. discriminate E.
  - rewrite (try_batch_raised _ _ _ _ _ _ _ _ _ H). cbn.
    split; [discriminate|]. intros (resp & Hr & _). discriminate Hr.
Qed.

(** X7.  The fallback loop over a batch cut in two is the loop over the
    first part followed by the loop over the second, started from the
    entries, the time and the network state the first part left. *)
Theorem fallback_loop_app endpoint (records1 records2 : list json) :
  forall aggregated elapsed_total (st : client_state World),
    fallback_loop requests_post endpoint (records1 ++ records2)
                  aggregated elapsed_total st
    = (let '(aggregated1, elapsed1, st1) :=
           fallback_loop requests_post endpoint records1
                         aggregated elapsed_total st in
       fallback_loop requests_post endpoint records2
                     aggregated1 elapsed1 st1).
Proof.
  induction records1 as [|rec rest IH]; intros aggregated elapsed_total st.
  - reflexivity.
  - change ((rec :: rest) ++ records2) with (rec :: (rest ++ records2)).
    cbn [fallback_loop]. unfold bind.
    destruct (call_api requests_post endpoint rec 15%float st)
      as [[[single_resp single_elapsed]|e] st1]; cbv beta iota; apply IH.
Qed.

End MoreNegotiation.

Lemma try_batch_round_trips_witness :
  snd (try_batch_with_fallback Fixtures.scripted_post Fixtures.str_of_text
         "/predict" Fixtures.batch (Fixtures.start Fixtures.two_timeouts))
  = ClientState []
      [RoundTrip (url_of "/predict") (JList Fixtures.batch)
         (Ok (Fixtures.rejects_list (JList Fixtures.batch))) 0.25%float;
       RoundTrip (url_of "/predict") Fixtures.rec1
         (Raise Fixtures.timed_out) 15%float;
       RoundTrip (url_of "/predict") Fixtures.rec2
         (Raise Fixtures.timed_out) 15%float;
       RoundTrip (url_of "/predict") Fixtures.rec3
         (Ok (Fixtures.predicted 2 "class_2")) 0.5%float].
Proof.
  destruct (try_batch_round_trips Fixtures.script Fixtures.scripted_post
              Fixtures.str_of_text "/predict" Fixtures.batch
              (Fixtures.start Fixtures.two_timeouts)
              (Ok (Fixtures.rejects_list (JList Fixtures.batch)))
              0.25%float (tl Fixtures.two_timeouts) eq_refl)
    as ([Hone|[_ Hall]] & _).
  - vm_compute in Hone. discriminate Hone.
  - rewrite Hall. vm_compute. reflexivity.
Defined.

Lemma try_batch_success_iff_witness :
  fst (fst (fst (try_batch_with_fallback Fixtures.scripted_post
                   Fixtures.str_of_text "/predict" Fixtures.batch
                   (Fixtures.start Fixtures.two_timeouts)))) = true /\
  fst (fst (fst (try_batch_with_fallback Fixtures.scripted_post
                   Fixtures.str_of_text "/predict" Fixtures.batch
                   (Fixtures.start Fixtures.accepts_list)))) = true /\
  fst (fst (fst (try_batch_with_fallback Fixtures.scripted_post
                   Fixtures.str_of_text "/predict" Fixtures.batch
                   (Fixtures.start Fixtures.missing_field)))) <> true.
Proof.
  repeat apply conj.
  - apply (proj2 (try_batch_success_iff Fixtures.script Fixtures.scripted_post
                    Fixtures.str_of_text "/predict" Fixtures.batch
                    (Fixtures.start Fixtures.two_timeouts)
                    (Ok (Fixtures.rejects_list (JList Fixtures.batch)))
                    0.25%float (tl Fixtures.two_timeouts) eq_refl)).
    eexists. split; [reflexivity|]. right.
    split; [reflexivity|apply rejects_list_has_signature].
  - apply (proj2 (try_batch_success_iff Fixtures.script Fixtures.scripted_post
                    Fixtures.str_of_text "/predict" Fixtures.batch
                    (Fixtures.start Fixtures.accepts_list)
                    (Ok (Response 200 (Some Fixtures.batch_scored) "(json)"))
                    0.5%float (tl Fixtures.accepts_list) eq_refl)).
    eexists. split; [reflexivity|]. left. reflexivity.
  - intros Hok.
    apply (proj1 (try_batch_success_iff Fixtures.script Fixtures.scripted_post
                    Fixtures.str_of_text "/predict" Fixtures.batch
                    (Fixtures.start Fixtures.missing_field)
                    (Ok (Response 422 (Some Fixtures.field_required) "(json)"))
                    0.25%float [] eq_refl)) in Hok.
    destruct Hok as (resp & Hr & [H200|[_ Hsig]]).
    + inversion Hr; subst resp. discriminate H200.
    + inversion Hr; subst resp. apply should_fallback_iff in Hsig.
      discriminate Hsig.
Defined.

(* ===================================================================== *)
(** ** The buttons of the page                                            *)
(* ===================================================================== *)

Section Buttons.

Variable World : Type.
Variable requests_post :
  World -> string -> json -> float -> result response * float * World.
Variable py_str : json -> string.

(** X8.  "Predict (single)" with a payload asks the network exactly once:
    one call of [requests_post], to [/predict], whose answer is what the
    page processes.  What it posts is always a JSON object: a dict goes as
    it is, anything else (a list of records too) goes whole under the key
    ["input"]; it is never split into records. *)
Theorem predict_clicked_posts_one_object
        (p : json) (st : client_state World) r seconds w :
  requests_post (world st) (url_of "/predict") (predict_body p) 15%float
  = (r, seconds, w) ->
  predict_clicked requests_post (Some p) st
  = (match r with
     | Ok resp => Ok (Response_processed resp seconds)
     | Raise e => Raise e
     end,
     ClientState w
       (trips st ++ [RoundTrip (url_of "/predict") (predict_body p) r
                               seconds])) /\
  is_dict (predict_body p) = true /\
  (is_dict p = true -> predict_body p = p) /\
  (is_dict p = false -> predict_body p = JDict [("input", p)]).
Proof.
  intros H. split.
  - unfold predict_clicked, bind.
    rewrite (call_api_run _ _ _ _ _ _ _ _ _ H).
    destruct r as [resp|e]; reflexivity.
  - unfold predict_body.
    destruct (is_dict p) eqn:Hp; repeat apply conj;
      try reflexivity; try exact Hp; try discriminate.
Qed.

Lemma batch_clicked_cases
      (uploaded : option json) (st : client_state World) :
  (exists records,
      (uploaded = Some (JList records) /\ records <> [] \/
       exists d, uploaded = Some (JDict d) /\
                 dict_get d "input_batch" = Some (JList records)) /\
      batch_clicked requests_post py_str uploaded st
      = send_batch requests_post py_str records st) \/
  (exists msg,
      batch_clicked requests_post py_str uploaded st
      = (Ok (Error_shown msg), st)).
Proof.
  destruct uploaded as [u|].
  - destruct u as [| | | | |items|fields].
    + right. cbn. eexists. reflexivity.
    + right. unfold batch_clicked. cbn [truthy]. destruct b; cbn;
        (eexists; reflexivity).
    + right. unfold batch_clicked. cbn [truthy].
      destruct (n =? 0)%Z; cbn;
        (eexists; reflexivity).
    + right. unfold batch_clicked. cbn [truthy].
      destruct (f =? 0)%float; cbn;
        (eexists; reflexivity).
    + right. unfold batch_clicked. cbn [truthy].
      destruct (String.eqb s EmptyString); cbn;
        (eexists; reflexivity).
    + destruct items as [|first rest].
      * right. cbn. eexists. reflexivity.
      * left. exists (first :: rest). split; [|reflexivity].
        left. split; [reflexivity|discriminate].
    + destruct fields as [|kv fields'].
      * right. cbn. eexists. reflexivity.
      * unfold batch_clicked. cbn [truthy negb].
        destruct (normalize_uploaded_json (JDict (kv :: fields')))
          as [y|e] eqn:Hn.
        -- destruct y as [| | | | |records|o];
             try (right; eexists; reflexivity).
           left. exists records. split; [|reflexivity]. right.
           apply normalize_list_inv in Hn.
           destruct Hn as [Hn|(d' & Hd' & Hb)]; [discriminate Hn|].
           exists d'. split; [now rewrite Hd'|exact Hb].
        -- right. eexists. reflexivity.
  - right. cbn. eexists. reflexivity.
Qed.


Lemma batch_clicked_block
      (uploaded : option json) (st : client_state World) :
  (forall records,
      uploaded = Some (JList records) /\ records <> [] \/
      (exists d, uploaded = Some (JDict d) /\
                 dict_get d "input_batch" = Some (JList records)) ->
      batch_clicked requests_post py_str uploaded st
      = send_batch requests_post py_str records st) /\
  ((forall records,
       ~ (uploaded = Some (JList records) /\ records <> [] \/
          exists d, uploaded = Some (JDict d) /\
                    dict_get d "input_batch" = Some (JList records))) ->
   exists msg,
     batch_clicked requests_post py_str uploaded st
     = (Ok (Error_shown msg), st)).
Proof.
  split.
  - intros records [[-> Hne]|(d & -> & Hd)].
    + destruct records; [now contradiction Hne|reflexivity].
    + assert (Ht : truthy (JDict d) = true).
      { destruct d; [discriminate Hd|reflexivity]. }
      unfold batch_clicked. rewrite Ht, (normalize_dict_batch _ _ Hd).
      reflexivity.
  - intros Hnone.
    destruct (batch_clicked_cases uploaded st)
      as [(records & Hsend & _)|Herr]; [|exact Herr].
    exfalso. exact (Hnone records Hsend).
Qed.

(** The preview of the prepared payload either shows something or raises
    [IndexError], the latter exactly for an upload mode and a stored dict
    whose ["input_batch"] is the empty list. *)
Lemma preview_outcome (mode : input_mode) (number_input : string -> float)
      (uploaded : option json) :
  (mode <> Manual_single /\
   (exists d, uploaded = Some (JDict d) /\
              dict_get d "input_batch" = Some (JList [])) /\
   input_preview (prepare_payload mode (manual_inputs number_input) uploaded)
   = Raise IndexError) \/
  (~ (mode <> Manual_single /\
      exists d, uploaded = Some (JDict d) /\
                dict_get d "input_batch" = Some (JList [])) /\
   exists shown,
     input_preview (prepare_payload mode (manual_inputs number_input) uploaded)
     = Ok shown).
Proof.
  destruct mode.
  - right. split; [intros [Hm _]; now contradiction Hm|].
    eexists. reflexivity.
  - cbn [prepare_payload].
    destruct uploaded as [u|];
      [|right; split; [intros (_ & d & Hd & _); discriminate Hd
                      |eexists; reflexivity]].
    destruct (truthy u) eqn:Ht.
    + destruct (normalize_uploaded_json u) as [y|e] eqn:Hn.
      * destruct y as [| | | | |items|fields];
          try (right; split;
               [intros (_ & d & Hd & Hb); inversion Hd; subst u;
                rewrite (normalize_dict_batch _ _ Hb) in Hn; discriminate Hn
               |eexists; reflexivity]).
        destruct items as [|first rest].
        -- left. split; [discriminate|]. split; [|reflexivity].
           apply normalize_list_inv in Hn.
           destruct Hn as [->|(d & -> & Hd)]; [discriminate Ht|].
           exists d. split; [reflexivity|exact Hd].
        -- right. split; [|eexists; reflexivity].
           intros (_ & d & Hd & Hb). inversion Hd; subst u.
           rewrite (normalize_dict_batch _ _ Hb) in Hn. discriminate Hn.
      * right. split; [|eexists; reflexivity].
        intros (_ & d & Hd & Hb). inversion Hd; subst u.
        rewrite (normalize_dict_batch _ _ Hb) in Hn. discriminate Hn.
    + right. split; [|eexists; reflexivity].
      intros (_ & d & Hd & Hb). inversion Hd; subst u.
      destruct d; [discriminate Hb|discriminate Ht].
  - cbn [prepare_payload].
    destruct uploaded as [u|];
      [|right; split; [intros (_ & d & Hd & _); discriminate Hd
                      |eexists; reflexivity]].
    destruct (truthy u) eqn:Ht.
    + destruct (normalize_uploaded_json u) as [y|e] eqn:Hn.
      * destruct y as [| | | | |items|fields];
          try (right; split;
               [intros (_ & d & Hd & Hb); inversion Hd; subst u;
                rewrite (normalize_dict_batch _ _ Hb) in Hn; discriminate Hn
               |eexists; reflexivity]).
        destruct items as [|first rest].
        -- left. split; [discriminate|]. split; [|reflexivity].
           apply normalize_list_inv in Hn.
           destruct Hn as [->|(d & -> & Hd)]; [discriminate Ht|].
           exists d. split; [reflexivity|exact Hd].
        -- right. split; [|eexists; reflexivity].
           intros (_ & d & Hd & Hb). inversion Hd; subst u.
           rewrite (normalize_dict_batch _ _ Hb) in Hn. discriminate Hn.
      * right. split; [|eexists; reflexivity].
        intros (_ & d & Hd & Hb). inversion Hd; subst u.
        rewrite (normalize_dict_batch _ _ Hb) in Hn. discriminate Hn.
    + right. split; [|eexists; reflexivity].
      intros (_ & d & Hd & Hb). inversion Hd; subst u.
      destruct d; [discriminate Hb|discriminate Ht].
Qed.


End Buttons.

(* ===================================================================== *)
(** ** More on the inference service                                      *)
(* ===================================================================== *)

Section MoreService.

Variable path_exists : string -> bool.
Variable joblib_load : string -> result estimator.
Variable target_names : list string.
Variable float_field : json -> string * string + float.

Local Notation post_predict' :=
  (post_predict path_exists joblib_load target_names float_field).
Local Notation post_predict_with_probability' :=
  (post_predict_with_probability path_exists joblib_load target_names
                                 float_field).

(** X10.  Whenever a request body is decoded into [WineData], the feature
    row that both handlers build (main.py lines 49-63 and 80-94) holds the
    thirteen values the body gave for the declared fields, each present and
    accepted as a number, in the order of the declaration: alcohol first,
    proline last. *)
Theorem decode_WineData_feature_row (body : json) (wine_features : WineData) :
  decode_WineData float_field body = inr wine_features ->
  exists fields,
    body = JDict fields /\
    features_of wine_features
    = [map (field_value float_field fields) WineData_fields] /\
    forall name, In name WineData_fields ->
                 field_accepted float_field fields name
                                (field_value float_field fields name).
Proof.
  intros H. unfold decode_WineData in H.
  destruct body as [| | | | | |fields]; try discriminate H.
  destruct (flat_map _ WineData_fields) eqn:E; [|discriminate H].
  inversion H; subst wine_features. exists fields.
  repeat apply conj; try reflexivity.
  intros name Hin.
  pose proof (flat_map_nil_inv _ _ E name Hin) as Hnil.
  apply field_entry_nil_iff in Hnil. destruct Hnil as (x & v & Hv & Hx).
  exists v. split; [exact Hv|]. unfold field_value. now rewrite Hv, Hx.
Qed.

(** X11.  The dashboard's form and the service's schema name the same
    thirteen features in the same order, so the payload of the manual form
    always decodes (given that the validator takes a JSON float as it is):
    the model is given the thirteen numbers of the form, in the order of
    [WINE_FEATURES], and the answer to "Predict (single)" from the form is
    never a 422. *)
Theorem manual_inputs_decode (number_input : string -> float) :
  (forall x, float_field (JFloat x) = inr x) ->
  WINE_FEATURES = WineData_fields /\
  exists wine_features,
    decode_WineData float_field (manual_inputs number_input)
    = inr wine_features /\
    features_of wine_features = [map number_input WINE_FEATURES] /\
    post_predict' (predict_body (manual_inputs number_input))
    = predict_wine path_exists joblib_load target_names wine_features /\
    http_status (post_predict' (predict_body (manual_inputs number_input)))
    <> 422%Z.
Proof.
  intros Hf. split; [reflexivity|].
  assert (Hdec : exists wf,
             decode_WineData float_field (manual_inputs number_input) = inr wf /\
             features_of wf = [map number_input WINE_FEATURES]).
  { unfold manual_inputs. cbn. rewrite !Hf. cbn. rewrite ?Hf.
    eexists. split; reflexivity. }
  destruct Hdec as (wf & Hdec & Hrow). exists wf.
  assert (Hpost : post_predict' (predict_body (manual_inputs number_input))
                  = predict_wine path_exists joblib_load target_names wf).
  { change (predict_body (manual_inputs number_input))
      with (manual_inputs number_input).
    unfold post_predict. apply route_accepts, Hdec. }
  repeat apply conj; try assumption.
  rewrite Hpost. unfold predict_wine.
  destruct (result_bind _ _); cbn; discriminate.
Qed.

(** X12.  "Predict (single)" with a payload that is not a dict (a list of
    records, say) posts it under ["input"]; the service, which looks for
    the thirteen fields at the top level, always refuses that body with
    422 and one "Field required" entry per declared field, whatever the
    model and the records are. *)
Theorem wrapped_payload_is_refused (p : json) :
  is_dict p = false ->
  post_predict' (predict_body p)
  = Http 422
      (JDict [("detail",
               JList (map (missing_entry (JDict [("input", p)]))
                          WineData_fields))]).
Proof.
  intros Hp. unfold predict_body. rewrite Hp. reflexivity.
Qed.

End MoreService.

Lemma py_index_nat {A : Type} (seq : list A) (i : nat) :
  py_index seq (Z.of_nat i) = nth_error seq i.
Proof.
  unfold py_index.
  destruct ((0 <=? Z.of_nat i)%Z && (Z.of_nat i <? Z.of_nat (List.length seq))%Z)
    eqn:E1.
  - now rewrite Nat2Z.id.
  - assert (Hge : (List.length seq <= i)%nat).
    { apply andb_false_iff in E1. destruct E1 as [E1|E1].
      - apply Z.leb_gt in E1. lia.
      - apply Z.ltb_ge in E1. lia. }
    replace ((- Z.of_nat (List.length seq) <=? Z.of_nat i)%Z
             && (Z.of_nat i <? 0)%Z) with false.
    + symmetry. apply nth_error_None, Hge.
    + symmetry. apply andb_false_iff. right. apply Z.ltb_ge. lia.
Qed.

Lemma dict_set_fresh (d : pydict) (k : string) (v : json) :
  dict_get d k = None -> dict_set d k v = d ++ [(k, v)].
Proof.
  induction d as [|[k' v'] rest IH]; intros H; [reflexivity|].
  cbn in *. destruct (String.eqb k k'); [discriminate H|].
  now rewrite IH.
Qed.

Lemma dict_get_app_other (d : pydict) (k k' : string) (v : json) :
  k' <> k -> dict_get (d ++ [(k, v)]) k' = dict_get d k'.
Proof.
  intros Hne. induction d as [|[k0 v0] rest IH]; cbn.
  - apply String.eqb_neq in Hne. now rewrite Hne.
  - destruct (String.eqb k' k0); [reflexivity|exact IH].
Qed.

Section Probabilities.

Variable target_names : list string.

Lemma probabilities_from_distinct (row : list float) :
  NoDup target_names ->
  forall i acc,
    (i + List.length row <= List.length target_names)%nat ->
    (forall j name, (i <= j)%nat -> nth_error target_names j = Some name ->
                    dict_get acc name = None) ->
    probabilities_from target_names i row acc
    = Ok (acc ++ combine (skipn i target_names) (map JFloat row)).
Proof.
  intros Hnd. induction row as [|prob rest IH]; intros i acc Hlen Hfresh.
  - cbn. destruct (skipn i target_names); now rewrite app_nil_r.
  - cbn [List.length] in Hlen. cbn [probabilities_from].
    unfold index_or_raise. rewrite py_index_nat.
    destruct (nth_error target_names i) as [name|] eqn:Hi.
    2:{ apply nth_error_None in Hi. lia. }
    cbn [result_bind].
    rewrite (dict_set_fresh _ _ _ (Hfresh i name (Nat.le_refl i) Hi)).
    rewrite IH.
    + f_equal. rewrite <- app_assoc. f_equal.
      assert (Hsk : skipn i target_names = name :: skipn (S i) target_names).
      { clear -Hi. revert i Hi.
        induction target_names as [|a l IHl]; intros i Hi.
        - destruct i; discriminate Hi.
        - destruct i; cbn in *; [now inversion Hi|apply IHl, Hi]. }
      rewrite Hsk. reflexivity.
    + lia.
    + intros j name' Hj Hname'.
      rewrite dict_get_app_other; [apply (Hfresh j); [lia|exact Hname']|].
      intros ->. rewrite <- Hi in Hname'.
      apply (proj1 (NoDup_nth_error target_names) Hnd) in Hname'; [lia|].
      apply nth_error_Some. rewrite Hname', Hi. discriminate.
Qed.

Lemma probabilities_from_too_many (row : list float) :
  forall i acc,
    (i <= List.length target_names)%nat ->
    (List.length target_names < i + List.length row)%nat ->
    probabilities_from target_names i row acc = Raise IndexError.
Proof.
  induction row as [|prob rest IH]; intros i acc Hi Hlen.
  - cbn in Hlen. lia.
  - cbn [List.length] in Hlen. cbn [probabilities_from].
    unfold index_or_raise. rewrite py_index_nat.
    destruct (nth_error target_names i) as [name|] eqn:E; [|reflexivity].
    cbn [result_bind]. apply IH; [|lia].
    assert (i < List.length target_names)%nat; [|lia].
    apply nth_error_Some. rewrite E. discriminate.
Qed.

(** X13.  The dict comprehension of predict.py lines 67-70 pairs the i-th
    class label with the i-th probability: with distinct labels and a
    distribution of at most N numbers the result is that pairing, in
    order; a distribution of more than N numbers raises [IndexError] (and
    the route answers 500). *)
Theorem probabilities_pair_labels_in_order (row : list float) :
  (NoDup target_names ->
   (List.length row <= List.length target_names)%nat ->
   probabilities_from target_names 0 row []
   = Ok (combine target_names (map JFloat row))) /\
  ((List.length target_names < List.length row)%nat ->
   probabilities_from target_names 0 row [] = Raise IndexError).
Proof.
  split.
  - intros Hnd Hlen.
    rewrite (probabilities_from_distinct row Hnd 0 []); [reflexivity|lia|].
    reflexivity.
  - intros Hlen. apply probabilities_from_too_many; lia.
Qed.

End Probabilities.

Lemma probabilities_pair_labels_in_order_witness :
  probabilities_from Fixtures.class_labels 0 [0.25; 0.5; 0.25]%float []
  = Ok [("class_0", JFloat 0.25); ("class_1", JFloat 0.5);
        ("class_2", JFloat 0.25)] /\
  probabilities_from Fixtures.class_labels 0 [0.25; 0.25; 0.25; 0.25]%float []
  = Raise IndexError.
Proof.
  destruct (probabilities_pair_labels_in_order Fixtures.class_labels
              [0.25; 0.5; 0.25]%float) as (Hok & _).
  destruct (probabilities_pair_labels_in_order Fixtures.class_labels
              [0.25; 0.25; 0.25; 0.25]%float) as (_ & Hbad).
  split.
  - apply Hok.
    + repeat constructor; cbn; intuition discriminate.
    + cbn. lia.
  - apply Hbad. cbn. lia.
Defined.

Section Routes.

Variable path_exists : string -> bool.
Variable joblib_load : string -> result estimator.
Variable target_names : list string.
Variable float_field : json -> string * string + float.
Variable py_str : json -> string.

Local Notation post_predict' :=
  (post_predict path_exists joblib_load target_names float_field).
Local Notation post_predict_with_probability' :=
  (post_predict_with_probability path_exists joblib_load target_names
                                 float_field).

(** Rewrites with the steps that are known to have succeeded. *)
Ltac replay_steps :=
  cbn [result_bind];
  repeat match goal with
         | Hx : ?c = Ok _ |- context [result_bind ?c _] =>
             rewrite Hx; cbn [result_bind]
         end.

(** X14.  The two routes agree: whenever [/predict-with-probability]
    answers a body with 200, [/predict] answers the same body with 200 and
    the same [prediction] and [class_name]. *)
Theorem probability_route_agrees_with_predict (body : json) :
  http_status (post_predict_with_probability' body) = 200%Z ->
  exists label class_name probabilities,
    post_predict_with_probability' body
    = Http 200 (JDict [("prediction", JInt label);
                       ("class_name", JStr class_name);
                       ("probabilities", JDict probabilities)]) /\
    post_predict' body
    = Http 200 (JDict [("prediction", JInt label);
                       ("class_name", JStr class_name)]).
Proof.
  intros H200. unfold post_predict_with_probability, post_predict in *.
  destruct (route_200 _ _ _ H200) as (wf & Hdec & Hroute).
  rewrite Hroute in *. rewrite (route_accepts _ _ _ _ Hdec).
  unfold predict_wine_with_probability in *.
  destruct (predict_with_prob _ _ _ (features_of wf)) as [b|e] eqn:E;
    [|discriminate H200].
  unfold predict_with_prob in E.
  destruct (model_path path_exists) as [path|] eqn:Hpath; [|discriminate E].
  ok_steps E. inversion E; subst b.
  eexists _, _, _. split; [reflexivity|].
  unfold predict_wine, predict_data. rewrite Hpath. replay_steps.
  reflexivity.
Qed.

Lemma ok_body_shape body r :
  r = post_predict' body \/ r = post_predict_with_probability' body ->
  http_status r = 200%Z ->
  exists label class_name rest,
    http_body r = JDict (("prediction", JInt label)
                         :: ("class_name", JStr class_name) :: rest).
Proof.
  intros [-> | ->] H200.
  - unfold post_predict in *.
    destruct (route_200 _ _ _ H200) as (wf & _ & Hroute). rewrite Hroute in *.
    destruct (predict_wine_200 _ _ _ _ H200) as (label & cn & Heq & _).
    rewrite Heq. exists label, cn, []. reflexivity.
  - unfold post_predict_with_probability in *.
    destruct (route_200 _ _ _ H200) as (wf & _ & Hroute). rewrite Hroute in *.
    unfold predict_wine_with_probability in *.
    destruct (predict_with_prob _ _ _ (features_of wf)) as [b|e] eqn:E;
      [|discriminate H200].
    destruct (predict_with_prob_ok _ _ _ _ _ E)
      as (label & cn & probs & -> & _).
    eexists _, _, _. reflexivity.
Qed.

(** X15.  The two routes answer with one of three statuses and no other:
    200 with a body that carries [prediction] and [class_name], 422 with a
    non-empty list of validation entries under ["detail"], or 500 with the
    text of an exception under ["detail"]. *)
Theorem route_statuses body r :
  r = post_predict' body \/ r = post_predict_with_probability' body ->
  (http_status r = 200%Z /\
   exists label class_name,
     response_prediction r = Some label /\
     response_class_name r = Some class_name) \/
  (http_status r = 422%Z /\
   exists entries,
     entries <> [] /\ http_body r = JDict [("detail", JList entries)]) \/
  (http_status r = 500%Z /\
   exists e, http_body r = JDict [("detail", JStr (exn_text e))]).
Proof.
  intros Hr.
  destruct (Z.eq_dec (http_status r) 200) as [H200|H200].
  - left. split; [exact H200|].
    destruct (ok_body_shape body r Hr H200) as (label & cn & rest & Hbody).
    exists label, cn. unfold response_prediction, response_class_name.
    rewrite Hbody. split; reflexivity.
  - right.
    assert (Hcases :
              forall handler,
                (forall wf, (exists b, handler wf = Http 200 b) \/
                            (exists e, handler wf = http_exception_500 e)) ->
                r = route float_field handler body ->
                (http_status r = 422%Z /\
                 exists entries,
                   entries <> [] /\
                   http_body r = JDict [("detail", JList entries)]) \/
                (http_status r = 500%Z /\
                 exists e, http_body r = JDict [("detail", JStr (exn_text e))])).
    { intros handler Hh ->. unfold route in *.
      destruct (decode_WineData float_field body) as [entries|wf] eqn:Hdec.
      - left. split; [reflexivity|]. exists entries. split; [|reflexivity].
        intros ->. unfold decode_WineData in Hdec.
        destruct body; try discriminate Hdec.
        destruct (flat_map _ WineData_fields); discriminate Hdec.
      - destruct (Hh wf) as [[b Hb]|[e He]].
        + rewrite Hb in H200. now contradiction H200.
        + right. rewrite He. split; [reflexivity|]. exists e. reflexivity. }
    destruct Hr as [Hr|Hr].
    + apply (Hcases (predict_wine path_exists joblib_load target_names));
        [|exact Hr].
      intros wf. unfold predict_wine.
      destruct (result_bind _ _) as [b|e];
        [left; exists b; reflexivity|right; exists e; reflexivity].
    + apply (Hcases (predict_wine_with_probability path_exists joblib_load
                                                   target_names));
        [|exact Hr].
      intros wf. unfold predict_wine_with_probability.
      destruct (predict_with_prob _ _ _ _) as [b|e];
        [left; exists b; reflexivity|right; exists e; reflexivity].
Qed.

(** X16.  The label that the page shows for a 200 answer of the service is
    always found: for a prediction 0, 1 or 2 it is the cultivar label of
    [CLASS_INDEX_TO_LABEL]; for any other prediction (a negative one, say)
    it is the service's [class_name], or the text of the prediction when
    that name is empty. *)
Theorem friendly_label_of_served_answer body r :
  r = post_predict' body \/ r = post_predict_with_probability' body ->
  http_status r = 200%Z ->
  exists label class_name,
    response_prediction r = Some label /\
    response_class_name r = Some class_name /\
    friendly py_str (http_body r)
    = Ok (match label_of_index label with
          | Some cultivar => JStr cultivar
          | None =>
              if String.eqb class_name EmptyString
              then JStr (py_str (JInt label))
              else JStr class_name
          end) /\
    (label_of_index label = None <-> ~ (0 <= label <= 2)%Z).
Proof.
  intros Hr H200.
  destruct (ok_body_shape body r Hr H200) as (label & cn & rest & Hbody).
  exists label, cn. unfold response_prediction, response_class_name.
  rewrite Hbody. split; [reflexivity|]. split; [reflexivity|]. split.
  - unfold friendly. cbn. destruct (label_of_index label); [reflexivity|].
    destruct (String.eqb cn EmptyString); reflexivity.
  - unfold label_of_index, CLASS_INDEX_TO_LABEL. cbn [find fst].
    destruct (0 =? label)%Z eqn:E0;
      [apply Z.eqb_eq in E0; cbn; split; [intros H; discriminate H|intros H; exfalso; lia]|].
    destruct (1 =? label)%Z eqn:E1;
      [apply Z.eqb_eq in E1; cbn; split; [intros H; discriminate H|intros H; exfalso; lia]|].
    destruct (2 =? label)%Z eqn:E2;
      [apply Z.eqb_eq in E2; cbn; split; [intros H; discriminate H|intros H; exfalso; lia]|].
    apply Z.eqb_neq in E0, E1, E2. cbn. split; [intros _; lia|reflexivity].
Qed.

End Routes.

(* ===================================================================== *)
(** ** The dashboard against the service                                  *)
(* ===================================================================== *)

Section EndToEnd.

Variable path_exists : string -> bool.
Variable joblib_load : string -> result estimator.
Variable target_names : list string.
Variable float_field : json -> string * string + float.
Variable body_text : json -> string.
Variable seconds_for : string -> json -> float.
Variable py_str : json -> string.

Local Notation served :=
  (served_post path_exists joblib_load target_names float_field body_text
               seconds_for).
Local Notation entry_for :=
  (served_entry path_exists joblib_load target_names float_field).
Local Notation proba_url := (url_of "/predict-with-probability").

(** The round trip that the network of [served_post] logs for a payload
    posted to the probability route. *)
Local Notation trip_for payload :=
  (RoundTrip proba_url payload
     (Ok (Response
            (http_status
               (post_predict_with_probability path_exists joblib_load
                  target_names float_field payload))
            (Some (to_wire
                     (http_body
                        (post_predict_with_probability path_exists
                           joblib_load target_names float_field payload))))
            (body_text
               (to_wire
                  (http_body
                     (post_predict_with_probability path_exists joblib_load
                        target_names float_field payload))))))
     (seconds_for proba_url payload)).

Lemma served_answers (payload : json) :
  finite_json payload = true ->
  served tt proba_url payload 15%float
  = (rt_result (trip_for payload), seconds_for proba_url payload, tt).
Proof. intros H. unfold served_post. rewrite H. reflexivity. Qed.

Lemma served_fallback_loop (records : list json) :
  forallb finite_json records = true ->
  forall aggregated elapsed_total (st : client_state unit),
    fallback_loop served "/predict-with-probability" records
                  aggregated elapsed_total st
    = ((aggregated ++ map entry_for records,
        add_seconds elapsed_total (map (seconds_for proba_url) records)),
       ClientState tt (trips st ++ map (fun rec => trip_for rec) records)).
Proof.
  induction records as [|rec rest IH];
    intros Hfin aggregated elapsed_total st.
  - cbn. rewrite !app_nil_r. destruct st as [[] log]. reflexivity.
  - cbn [forallb] in Hfin. apply andb_true_iff in Hfin.
    destruct Hfin as [Hrec Hrest].
    cbn [fallback_loop]. unfold bind.
    destruct st as [[] log].
    rewrite (call_api_run unit served "/predict-with-probability" rec
               15%float (ClientState tt log) _ _ tt (served_answers rec Hrec)).
    cbn [handed_back rt_result]. rewrite (IH Hrest). cbn [trips map].
    rewrite <- !app_assoc. reflexivity.
Qed.

(** X17.  Against the service of main.py a batch of records that JSON can
    carry (no NaN, no infinity) always takes the fallback path: the list is
    refused with the object-expected entry, then every record is posted
    alone.  The call returns success with one entry per record, in order:
    the 200 body of the record's own answer as it arrives ([null] where the
    service computed a number that is not finite), or [{"error": body,
    "status": code}] when the service refused or failed that record.  N+1
    round trips are made, and a press of the batch button shows the list
    as returned. *)
Theorem batch_against_service
        (records : list json) (st : client_state unit) :
  (forall s, py_str (JStr s) = s) ->
  finite_json (JList records) = true ->
  try_batch_with_fallback served py_str "/predict-with-probability" records st
  = ((true, JList (map entry_for records),
      add_seconds (0 + seconds_for proba_url (JList records))%float
                  (map (seconds_for proba_url) records)),
     ClientState tt
       (trips st ++ trip_for (JList records)
              :: map (fun rec => trip_for rec) records)) /\
  fst (send_batch served py_str records st)
  = Ok (Batch_returned
          (JList (map entry_for records))
          (add_seconds (0 + seconds_for proba_url (JList records))%float
                       (map (seconds_for proba_url) records))).
Proof.
  intros Hstr Hfin.
  assert (Hrun :
    try_batch_with_fallback served py_str "/predict-with-probability"
                            records st
    = ((true, JList (map entry_for records),
        add_seconds (0 + seconds_for proba_url (JList records))%float
                    (map (seconds_for proba_url) records)),
       ClientState tt
         (trips st ++ trip_for (JList records)
                :: map (fun rec => trip_for rec) records))).
  { destruct st as [[] log].
    rewrite (try_batch_loop unit served py_str "/predict-with-probability"
               records (ClientState tt log) _ _ tt
               (served_answers (JList records) Hfin)).
    - rewrite (served_fallback_loop records Hfin). cbn [trips app].
      rewrite <- app_assoc. reflexivity.
    - reflexivity.
    - cbn. rewrite Hstr. reflexivity. }
  split; [exact Hrun|].
  unfold send_batch, bind. rewrite Hrun. reflexivity.
Qed.

End EndToEnd.

(* ===================================================================== *)
(** ** The added properties on concrete inputs                            *)
(* ===================================================================== *)

Lemma predict_clicked_posts_one_object_witness :
  predict_clicked Fixtures.scripted_post (Some (JList Fixtures.batch))
                  (Fixtures.start Fixtures.missing_field)
  = (Ok (Response_processed
           (Response 422 (Some Fixtures.field_required) "(json)") 0.25%float),
     ClientState []
       [RoundTrip (url_of "/predict")
          (JDict [("input", JList Fixtures.batch)])
          (Ok (Response 422 (Some Fixtures.field_required) "(json)"))
          0.25%float]).
Proof.
  exact (proj1 (predict_clicked_posts_one_object Fixtures.script
                  Fixtures.scripted_post (JList Fixtures.batch)
                  (Fixtures.start Fixtures.missing_field)
                  (Ok (Response 422 (Some Fixtures.field_required) "(json)"))
                  0.25%float [] eq_refl)).
Defined.


Lemma decode_WineData_feature_row_witness :
  features_of
    (MkWineData 13 1.7 2.4 15 100 2.8 3 0.3 1.8 5 1 3 1000)
  = [[13; 1.7; 2.4; 15; 100; 2.8; 3; 0.3; 1.8; 5; 1; 3; 1000]%float] /\
  decode_WineData Fixtures.number_field Fixtures.sample_record
  = inr (MkWineData 13 1.7 2.4 15 100 2.8 3 0.3 1.8 5 1 3 1000).
Proof.
  destruct (decode_WineData_feature_row Fixtures.number_field
              Fixtures.sample_record
              (MkWineData 13 1.7 2.4 15 100 2.8 3 0.3 1.8 5 1 3 1000)
              eq_refl)
    as (fields & Hbody & Hrow & _).
  split; [|reflexivity].
  rewrite Hrow. inversion Hbody. reflexivity.
Defined.

Lemma manual_inputs_decode_witness :
  exists wine_features,
    decode_WineData Fixtures.number_field (manual_inputs (fun _ => 1%float))
    = inr wine_features /\
    features_of wine_features = [map (fun _ => 1%float) WINE_FEATURES].
Proof.
  destruct (manual_inputs_decode Fixtures.trained
              (Fixtures.loads (Fixtures.constant_estimator 1 [0; 1; 0]%float))
              Fixtures.class_labels Fixtures.number_field
              (fun _ => 1%float) (fun x => eq_refl))
    as (_ & wf & Hdec & Hrow & _).
  exists wf. split; assumption.
Defined.

Lemma wrapped_payload_is_refused_witness :
  http_status
    (post_predict Fixtures.trained
       (Fixtures.loads (Fixtures.constant_estimator 1 [0; 1; 0]%float))
       Fixtures.class_labels Fixtures.number_field
       (predict_body (JList Fixtures.batch)))
  = 422%Z.
Proof.
  rewrite (wrapped_payload_is_refused Fixtures.trained
             (Fixtures.loads (Fixtures.constant_estimator 1 [0; 1; 0]%float))
             Fixtures.class_labels Fixtures.number_field
             (JList Fixtures.batch) eq_refl).
  reflexivity.
Defined.

Lemma probability_route_agrees_with_predict_witness :
  post_predict Fixtures.trained
    (Fixtures.loads (Fixtures.constant_estimator 1 [0; 1; 0]%float))
    Fixtures.class_labels Fixtures.number_field Fixtures.sample_record
  = Http 200 (JDict [("prediction", JInt 1); ("class_name", JStr "class_1")]).
Proof.
  destruct (probability_route_agrees_with_predict Fixtures.trained
              (Fixtures.loads (Fixtures.constant_estimator 1 [0; 1; 0]%float))
              Fixtures.class_labels Fixtures.number_field
              Fixtures.sample_record eq_refl)
    as (label & class_name & probabilities & Hproba & Hpredict).
  rewrite Hpredict. vm_compute in Hproba. inversion Hproba. reflexivity.
Defined.

Lemma route_statuses_witness :
  http_status
    (post_predict Fixtures.no_file
       (Fixtures.loads (Fixtures.constant_estimator 1 [0; 1; 0]%float))
       Fixtures.class_labels Fixtures.number_field Fixtures.sample_record)
  = 500%Z.
Proof.
  destruct (route_statuses Fixtures.no_file
              (Fixtures.loads (Fixtures.constant_estimator 1 [0; 1; 0]%float))
              Fixtures.class_labels Fixtures.number_field
              Fixtures.sample_record _ (or_introl eq_refl))
    as [[H _]|[[H _]|[H _]]].
  - discriminate H.
  - discriminate H.
  - exact H.
Defined.

Lemma friendly_label_of_served_answer_witness :
  friendly Fixtures.str_of_text
    (http_body
       (post_predict Fixtures.trained
          (Fixtures.loads (Fixtures.constant_estimator (-1) [0; 0; 1]%float))
          Fixtures.class_labels Fixtures.number_field Fixtures.sample_record))
  = Ok (JStr "class_2").
Proof.
  destruct (friendly_label_of_served_answer Fixtures.trained
              (Fixtures.loads
                 (Fixtures.constant_estimator (-1) [0; 0; 1]%float))
              Fixtures.class_labels Fixtures.number_field Fixtures.str_of_text
              Fixtures.sample_record _ (or_introl eq_refl) eq_refl)
    as (label & class_name & Hlabel & Hname & Hfriendly & _).
  rewrite Hfriendly. vm_compute in Hlabel, Hname.
  inversion Hlabel. inversion Hname. reflexivity.
Defined.

Lemma batch_against_service_witness :
  fst (send_batch
         (served_post Fixtures.trained
            (Fixtures.loads
               (Fixtures.constant_estimator 1 [0; 1; PrimFloat.nan]%float))
            Fixtures.class_labels Fixtures.number_field
            (fun _ => "(json)") (fun _ _ => 0.25%float))
         Fixtures.str_of_text [Fixtures.sample_record; JList []]
         (ClientState tt []))
  = Ok (Batch_returned
          (JList [JDict [("prediction", JInt 1);
                         ("class_name", JStr "class_1");
                         ("probabilities",
                          JDict [("class_0", JFloat 0);
                                 ("class_1", JFloat 1);
                                 ("class_2", JNull)])];
                  JDict [("error", Fixtures.object_expected (JList []));
                         ("status", JInt 422)]])
          0.75%float).
Proof.
  rewrite (proj2 (batch_against_service Fixtures.trained
                    (Fixtures.loads
                       (Fixtures.constant_estimator
                          1 [0; 1; PrimFloat.nan]%float))
                    Fixtures.class_labels Fixtures.number_field
                    (fun _ => "(json)") (fun _ _ => 0.25%float)
                    Fixtures.str_of_text
                    [Fixtures.sample_record; JList []] (ClientState tt [])
                    (fun s => eq_refl) eq_refl)).
  vm_compute. reflexivity.
Defined.

(* ===================================================================== *)
(** ** A service without a model file                                     *)
(* ===================================================================== *)

(** X18.  When none of the three known paths exists, no request is ever
    answered 200 by either route, whatever would be loaded or predicted: a
    body that decodes gets the 500 answer with the "Wine model not found"
    text, every other body its 422. *)
Theorem no_model_file_no_prediction
        (path_exists : string -> bool)
        (joblib_load : string -> result estimator)
        (target_names : list string)
        (float_field : json -> string * string + float)
        (body : json) (r : http_response) :
  (forall path, In path possible_paths -> path_exists path = false) ->
  r = post_predict path_exists joblib_load target_names float_field body \/
  r = post_predict_with_probability path_exists joblib_load target_names
                                    float_field body ->
  (exists wine_features,
      decode_WineData float_field body = inr wine_features /\
      r = http_exception_500 model_not_found) \/
  (exists entries,
      decode_WineData float_field body = inl entries /\
      r = Http 422 (JDict [("detail", JList entries)])).
Proof.
  intros Hnone Hr.
  assert (Hpath : model_path path_exists = None).
  { unfold model_path, possible_paths. cbn [find].
    rewrite (Hnone "model/wine_model.pkl") by (cbn; tauto).
    rewrite (Hnone "../model/wine_model.pkl") by (cbn; tauto).
    rewrite (Hnone "./wine_model.pkl") by (cbn; tauto).
    reflexivity. }
  destruct (decode_WineData float_field body) as [entries|wf] eqn:Hdec.
  - right. exists entries. split; [reflexivity|].
    destruct Hr as [-> | ->]; apply route_refuses, Hdec.
  - left. exists wf. split; [reflexivity|].
    destruct Hr as [-> | ->].
    + unfold post_predict. rewrite (route_accepts _ _ _ _ Hdec).
      unfold predict_wine, predict_data. rewrite Hpath. reflexivity.
    + unfold post_predict_with_probability.
      rewrite (route_accepts _ _ _ _ Hdec).
      unfold predict_wine_with_probability, predict_with_prob.
      rewrite Hpath. reflexivity.
Qed.

Lemma no_model_file_no_prediction_witness :
  post_predict_with_probability Fixtures.no_file
    (Fixtures.loads (Fixtures.constant_estimator 1 [0; 1; 0]%float))
    Fixtures.class_labels Fixtures.number_field Fixtures.sample_record
  = http_exception_500 model_not_found.
Proof.
  destruct (no_model_file_no_prediction Fixtures.no_file
              (Fixtures.loads (Fixtures.constant_estimator 1 [0; 1; 0]%float))
              Fixtures.class_labels Fixtures.number_field
              Fixtures.sample_record _
              (fun path _ => eq_refl) (or_intror eq_refl))
    as [(wf & _ & H)|(entries & Hdec & _)].
  - exact H.
  - discriminate Hdec.
Defined.

Lemma normalize_returns_list_iff_witness :
  normalize_uploaded_json (JDict [("input_batch", JList Fixtures.batch)])
  = Ok (JList Fixtures.batch).
Proof.
  apply (proj2 (normalize_returns_list_iff
                  (JDict [("input_batch", JList Fixtures.batch)])
                  Fixtures.batch)).
  right. eexists. split; reflexivity.
Defined.

Lemma input_preview_raises_iff_witness :
  exists e,
    input_preview
      (prepare_payload JSON_upload_batch (manual_inputs (fun _ => 1%float))
                       (Some (JDict [("input_batch", JList [])])))
    = Raise e.
Proof.
  apply (proj2 (input_preview_raises_iff JSON_upload_batch
                  (fun _ => 1%float)
                  (Some (JDict [("input_batch", JList [])])))).
  split; [discriminate|]. eexists. split; reflexivity.
Defined.
